(** * LanguageService: the facade over the TypeScript language service

    A shallow embedding of [src/compiler/tools/LanguageService.ts]:
    the two engine hosts built by the constructor, the program reset
    protocol, and the query operations of the class.

    The TypeScript engine ([ts.LanguageService]) is an external black
    box: for each call it is a program that may invoke the callbacks of
    the host before it answers.  Helpers of the repository
    that live outside the file (the source-file cache, the settings
    fillers, the text manipulation functions) are either fields of the
    class [Collaborators] or small definitions flagged as modelled from
    the specification.  The host callbacks [directoryExists],
    [writeFile] and [getEnvironmentVariable] involve neither the cache
    nor the program and are left out. *)

From Stdlib Require Import ZArith NArith String Ascii List Lia.
From stdpp Require Import gmap strings list fin_maps pretty.

(** ** JavaScript objects used as option bags *)

Inductive value :=
| VUndefined
| VBool (b : bool)
| VNumber (z : Z)
| VString (s : string).

Global Instance value_eq_dec : EqDecision value.
Proof. solve_decision. Defined.

(** [if (v)] in JavaScript. *)
Definition truthy (v : value) : bool :=
  match v with
  | VUndefined => false
  | VBool b => b
  | VNumber z => negb (z =? 0)%Z
  | VString s => negb (String.eqb s "")
  end.

(** A settings object ([FormatCodeSettings], [EditorSettings],
    [CompilerOptions]): own properties by name. *)
Abbreviation JsObject := (gmap string value).

(** [obj[key]]: a missing property reads as [undefined]. *)
Definition prop (o : JsObject) (key : string) : value :=
  default VUndefined (o !! key).

(** ** Errors thrown by the facade *)

Inductive error :=
| FileNotFoundError (filePath : string)
| ArgumentNullOrWhitespaceError (argName : string)
| TypeError (msg : string)
| EngineError (msg : string).

Global Instance error_eq_dec : EqDecision error.
Proof. solve_decision. Defined.

(** ** The session state *)

Record FileSystemWrapper := mkFs {
  fs_files : gmap string string;
  (** [getFileSystem() instanceof DefaultFileSystemHost] *)
  fs_isDefaultFileSystemHost : bool;
  fs_currentDirectory : string
}.

(** Callbacks registered on the source-file cache. *)
Inductive handler := ResetProgramHandler.

Record GlobalContainer := mkGlobal {
  (** [compilerFactory]: tracked path to full text *)
  sourceFileCache : gmap string string;
  sourceFileAdded : list handler;
  sourceFileRemoved : list handler;
  fileSystemWrapper : FileSystemWrapper;
  compilerOptions : JsObject;
  (** [manipulationSettings.getNewLineKindAsString()] *)
  newLineKindAsString : string;
  (** [global.getFormatCodeSettings()], a fresh object at each call *)
  formatCodeSettings : JsObject;
  (** [manipulationSettings.getEditorSettings()] *)
  editorSettings : JsObject
}.

(** The host surface a [Program] was handed. *)
Inductive hostRef := CompilerHostRef.

Record Program := mkProgram {
  rootNames : list string;
  programHost : hostRef;
  (** whether the engine program object has been created since the
      last reset *)
  created : bool
}.

(** Calls made into the engine, most recent last. *)
Inductive engineCall :=
| CallGetDefinitionAtPosition (fileName : string) (pos : Z)
| CallGetImplementationAtPosition (fileName : string) (pos : Z)
| CallFindReferences (fileName : string) (pos : Z)
| CallFindRenameLocations (fileName : string) (pos : Z)
    (findInStrings findInComments : bool)
| CallGetFormattingEditsForRange (fileName : string) (from to : Z)
| CallGetFormattingEditsForDocument (fileName : string)
| CallGetEmitOutput (fileName : string)
| CallGetIndentationAtPosition (fileName : string) (pos : Z)
| CallOrganizeImports (fileName : string).

Record LanguageService := mkLS {
  global : GlobalContainer;
  (** the constructor's [let version = 0], captured by the host.  A
      JavaScript number holding a call count; it is taken as a natural
      number without a bound (a JavaScript number counts exactly up to
      2^53). *)
  version : N;
  program : Program;
  engineCalls : list engineCall
}.

Definition with_cache (c : gmap string string) (g : GlobalContainer) :=
  mkGlobal c (sourceFileAdded g) (sourceFileRemoved g) (fileSystemWrapper g)
    (compilerOptions g) (newLineKindAsString g) (formatCodeSettings g)
    (editorSettings g).

Definition with_handlers (a r : list handler) (g : GlobalContainer) :=
  mkGlobal (sourceFileCache g) a r (fileSystemWrapper g)
    (compilerOptions g) (newLineKindAsString g) (formatCodeSettings g)
    (editorSettings g).

Definition with_global (g : GlobalContainer) (ls : LanguageService) :=
  mkLS g (version ls) (program ls) (engineCalls ls).

Definition with_version (v : N) (ls : LanguageService) :=
  mkLS (global ls) v (program ls) (engineCalls ls).

Definition with_program (p : Program) (ls : LanguageService) :=
  mkLS (global ls) (version ls) p (engineCalls ls).

Definition with_engineCalls (l : list engineCall) (ls : LanguageService) :=
  mkLS (global ls) (version ls) (program ls) l.

(** ** A state and exception monad for the methods *)

Definition M (A : Type) : Type :=
  LanguageService -> LanguageService * (error + A).

Global Instance M_ret : MRet M := fun A a ls => (ls, inr a).

Global Instance M_bind : MBind M := fun A B f m ls =>
  match m ls with
  | (ls', inr a) => f a ls'
  | (ls', inl e) => (ls', inl e)
  end.

Definition throw {A} (e : error) : M A := fun ls => (ls, inl e).
Definition gets {A} (f : LanguageService -> A) : M A :=
  fun ls => (ls, inr (f ls)).
Definition modify (f : LanguageService -> LanguageService) : M unit :=
  fun ls => (f ls, inr tt).

(** The value a method returns (or the error it throws) and the state
    it leaves. *)
Definition result {A} (m : M A) (ls : LanguageService) : error + A := (m ls).2.
Definition after {A} (m : M A) (ls : LanguageService) : LanguageService := (m ls).1.

(** ** The file tracking collaborator ([compilerFactory]) *)

(** Modelled from the spec: [containsSourceFileAtPath] belongs to
    [compilerFactory], which is not part of the sources at hand; a path
    is tracked when the cache holds a file under it. *)
Definition containsSourceFileAtPath (g : GlobalContainer) (filePath : string) : bool :=
  bool_decide (is_Some (sourceFileCache g !! filePath)).

(** Modelled from the spec: [getSourceFilePaths] of [compilerFactory],
    "list tracked paths". *)
Definition getSourceFilePaths (g : GlobalContainer) : list string :=
  (map_to_list (sourceFileCache g)).*1.

(** Modelled from the spec: [getSourceFileFromCacheFromFilePath] of
    [compilerFactory], "get cached file at path or none"; a file is
    represented by its full text. *)
Definition getSourceFileFromCacheFromFilePath (g : GlobalContainer)
    (filePath : string) : option string :=
  sourceFileCache g !! filePath.

(** ** The backing storage collaborator ([fileSystemWrapper]) *)

(** Modelled from the spec: [fileExistsSync] of [fileSystemWrapper],
    the storage's [exists(path)]. *)
Definition fs_fileExistsSync (fs : FileSystemWrapper) (path : string) : bool :=
  bool_decide (is_Some (fs_files fs !! path)).

(** Modelled from the spec: [readFileSync] of [fileSystemWrapper], the
    storage's [readText(path)]; [None] when the storage has no such
    file. *)
Definition fs_readFileSync (fs : FileSystemWrapper) (path : string) : option string :=
  fs_files fs !! path.

(** ** The program object *)

(** Modelled from the spec: [Program] is declared in [./Program], which
    is not part of the sources at hand.  The program is a rebuildable
    snapshot keyed by the list of known file paths plus the adapter; it
    is constructed eagerly with the current file list. *)
Definition Program_new (paths : list string) (h : hostRef) : Program :=
  mkProgram paths h true.

(** Modelled from the spec: [Program.reset]; the derived program is
    discarded whole and marked for a rebuild from the given list. *)
Definition Program_reset (paths : list string) (h : hostRef) (p : Program) : Program :=
  mkProgram paths h false.

(** Modelled from the spec: access to the engine program of a
    [Program]; a stale program is rebuilt from the list it was reset
    with.  The result is the root names the engine program is made of,
    and the [Program] afterwards. *)
Definition Program_compilerObject (p : Program) : list string * Program :=
  (rootNames p, mkProgram (rootNames p) (programHost p) true).

(** ** Strings *)

Definition LF : ascii := "010"%char.
Definition CR : ascii := "013"%char.

Definition lf : string := String LF "".
Definition crlf : string := String CR (String LF "").

(** The replacement text of [String.prototype.replace] for one match:
    in the replacement string [$$] stands for a dollar sign, [$&] for
    the matched text, [$`] for the text before the match and [$'] for
    the text after it; the pattern has no capture group, so any other
    use of the dollar sign stands for itself. *)
Fixpoint expandReplacement (replacement matched before after : string) : string :=
  match replacement with
  | EmptyString => EmptyString
  | String c rest =>
      if Ascii.eqb c "$"
      then
        match rest with
        | String d rest' =>
            if Ascii.eqb d "$"
            then String "$" (expandReplacement rest' matched before after)
            else if Ascii.eqb d "&"
            then matched +:+ expandReplacement rest' matched before after
            else if Ascii.eqb d "`"
            then before +:+ expandReplacement rest' matched before after
            else if Ascii.eqb d "'"
            then after +:+ expandReplacement rest' matched before after
            else String c (expandReplacement rest matched before after)
        | EmptyString => String c EmptyString
        end
      else String c (expandReplacement rest matched before after)
  end.

(** The scan of [text.replace(/\r?\n/g, newLineChar)] over what is left
    of the text, [before] being the part already scanned: every line
    feed, together with a carriage return right before it, is replaced. *)
Fixpoint replaceLineTerminatorsFrom (newLineChar before text : string) : string :=
  match text with
  | EmptyString => EmptyString
  | String c rest =>
      if Ascii.eqb c LF
      then expandReplacement newLineChar lf before rest
           +:+ replaceLineTerminatorsFrom newLineChar (before +:+ lf) rest
      else
        match rest with
        | String c' rest' =>
            if Ascii.eqb c CR && Ascii.eqb c' LF
            then expandReplacement newLineChar crlf before rest'
                 +:+ replaceLineTerminatorsFrom newLineChar (before +:+ crlf) rest'
            else String c
                   (replaceLineTerminatorsFrom newLineChar (before +:+ String c "") rest)
        | EmptyString => String c EmptyString
        end
  end.

(** [text.replace(/\r?\n/g, newLineChar)] *)
Definition replaceLineTerminators (newLineChar text : string) : string :=
  replaceLineTerminatorsFrom newLineChar "" text.

(** What the scan comes to when every match is replaced by the newline
    string as it stands. *)
Fixpoint insertLineTerminators (newLineChar text : string) : string :=
  match text with
  | EmptyString => EmptyString
  | String c rest =>
      if Ascii.eqb c LF then newLineChar +:+ insertLineTerminators newLineChar rest
      else
        match rest with
        | String c' rest' =>
            if Ascii.eqb c CR && Ascii.eqb c' LF
            then newLineChar +:+ insertLineTerminators newLineChar rest'
            else String c (insertLineTerminators newLineChar rest)
        | EmptyString => String c EmptyString
        end
  end.

(** Modelled from the spec: [StringUtils.endsWith] is defined in
    [utils], which is not part of the sources at hand; "the text
    already ends with" the given string. *)
Definition endsWith (str suffix : string) : bool :=
  let n := String.length str in
  let k := String.length suffix in
  (k <=? n)%nat && String.eqb (substring (n - k) k str) suffix.

(** [String(v)], the coercion applied where a string is expected. *)
Definition toJsString (v : value) : string :=
  match v with
  | VUndefined => "undefined"
  | VBool true => "true"
  | VBool false => "false"
  | VNumber z => pretty z
  | VString s => s
  end.

(** ** Settings objects *)

(** Modelled from the spec: [ObjectUtils.assign(a, b)] is defined in
    [utils]; the properties of [b] are copied over [a], so [b]
    overrides. *)
Definition assign (a b : JsObject) : JsObject := b ∪ a.

(** Modelled from the spec: the step of the fillers in [utils]; a
    field is set only while it reads as [undefined]. *)
Definition setValueIfUndefined (key : string) (v : value) (o : JsObject) : JsObject :=
  if decide (prop o key = VUndefined) then <[key := v]> o else o.

(** Modelled from the spec: [fillDefaultFormatCodeSettings] and
    [fillDefaultEditorSettings] are defined in [utils]; every field that
    is still unset receives its default from a fixed table. *)
Definition fillDefaults (defaults : list (string * value)) (settings : JsObject) : JsObject :=
  foldl (fun o kv => setValueIfUndefined kv.1 kv.2 o) settings defaults.

(** ** Records of the engine and their handles *)

Record TextSpan := mkSpan { span_start : Z; span_length : Z }.

Record ts_DefinitionInfo := mkDefinitionInfo {
  di_fileName : string; di_textSpan : TextSpan; di_kind : string; di_name : string
}.

Record ts_ReferenceEntry := mkReferenceEntry {
  re_fileName : string; re_textSpan : TextSpan; re_isDefinition : bool
}.

Record ts_ReferencedSymbol := mkReferencedSymbol {
  rs_definition : ts_DefinitionInfo; rs_references : list ts_ReferenceEntry
}.

Record ts_DocumentSpan := mkDocumentSpan {
  ds_fileName : string; ds_textSpan : TextSpan
}.

Record ts_TextChange := mkTextChange { tc_span : TextSpan; tc_newText : string }.

Record ts_FileTextChanges := mkFileTextChanges {
  ftc_fileName : string; ftc_textChanges : list ts_TextChange
}.

Record ts_EmitOutput := mkEmitOutput {
  eo_emitSkipped : bool; eo_outputFiles : list (string * string)
}.

(** [ts.ScriptElementKind.alias] *)
Definition ScriptElementKind_alias : string := "alias".

(** What a call into the engine does: it returns or it throws. *)
Inductive outcome (A : Type) :=
| Returns (a : A)
| Throws (msg : string).
Arguments Returns {A} a.
Arguments Throws {A} msg.

(** The callbacks of the language service host the engine may invoke
    while it serves a call, each with the type of what it is given
    back. *)
Inductive hostCall : Type -> Type :=
| GetCompilationSettings : hostCall JsObject
| GetNewLine : hostCall string
| GetScriptFileNames : hostCall (list string)
| GetScriptVersion (fileName : string) : hostCall string
| GetScriptSnapshot (fileName : string) : hostCall (option string)
| GetCurrentDirectory : hostCall string
| GetDefaultLibFileName (options : JsObject) : hostCall string
| UseCaseSensitiveFileNames : hostCall bool
| ReadFile (path : string) : hostCall (option string)
| FileExists (path : string) : hostCall bool.

(** How the engine serves one call: it invokes callbacks of the host,
    each next step depending on what the host gave back, and in the end
    returns or throws. *)
Inductive engineProgram (A : Type) :=
| Answer (o : outcome A)
| Ask {R : Type} (c : hostCall R) (k : R -> engineProgram A).
Arguments Answer {A} o.
Arguments Ask {A R} c k.

(** The [ts.LanguageService] object.  A list-valued answer may be
    [undefined] ([None]) at run time. *)
Record tsLanguageService := {
  ts_getDefinitionAtPosition :
    string -> Z -> engineProgram (option (list ts_DefinitionInfo));
  ts_getImplementationAtPosition :
    string -> Z -> engineProgram (option (list ts_DocumentSpan));
  ts_findReferences : string -> Z -> engineProgram (option (list ts_ReferencedSymbol));
  ts_findRenameLocations :
    string -> Z -> bool -> bool -> engineProgram (option (list ts_DocumentSpan));
  ts_getFormattingEditsForRange :
    string -> Z -> Z -> JsObject -> engineProgram (option (list ts_TextChange));
  ts_getFormattingEditsForDocument :
    string -> JsObject -> engineProgram (option (list ts_TextChange));
  ts_getEmitOutput : string -> option bool -> engineProgram ts_EmitOutput;
  ts_getIndentationAtPosition : string -> Z -> JsObject -> engineProgram Z;
  ts_organizeImports :
    string -> JsObject -> engineProgram (option (list ts_FileTextChanges))
}.

(** A handle object wrapping a record of the engine
    ([DefinitionInfo], [RenameLocation], [TextChange], ...). *)
Inductive handle (A : Type) := Handle (compilerObject : A).
Arguments Handle {A} compilerObject.

Definition compilerObject {A} (h : handle A) : A :=
  match h with Handle o => o end.

Record EmitOutput := mkEmitOutputHandle {
  emit_filePath : string; emit_compilerObject : ts_EmitOutput
}.

Record SourceFile := mkSourceFile { getFilePath : string }.

Record Node := mkNode {
  node_sourceFile : SourceFile;
  (** [getStart()] *)
  node_start : Z;
  (** [getText()] at the time of the call *)
  node_text : string
}.

Inductive filePathOrSourceFile :=
| OfFilePath (filePath : string)
| OfSourceFile (sourceFile : SourceFile).

(** [x || []] on a list-valued answer: an array, empty or not, is
    truthy. *)
Definition orEmpty {A} (x : option (list A)) : list A := default [] x.

(** [x.map(f)] on a value that may be [undefined]. *)
Definition mapOrTypeError {A B} (f : A -> B) (x : option (list A)) : M (list B) :=
  match x with
  | Some l => mret (f <$> l)
  | None => throw (TypeError "Cannot read property 'map' of undefined")
  end.

(** [KeyValueCache.getOrCreate(key, () => []).push(x)], entries kept in
    insertion order. *)
Fixpoint pushInto {A} (key : string) (x : A) (entries : list (string * list A))
    : list (string * list A) :=
  match entries with
  | [] => [(key, [x])]
  | (k, xs) :: rest =>
      if String.eqb k key then (k, xs ++ [x]) :: rest
      else (k, xs) :: pushInto key x rest
  end.

(** ** Collaborators outside the file

    The engine object and the functions of the repository that the
    class calls but that are defined elsewhere. *)
Class Collaborators := {
  (** [this.compilerObject], the engine *)
  E : tsLanguageService;
  (** [ts.getDefaultLibFilePath], [ts.getDefaultLibFileName] *)
  ts_getDefaultLibFilePath : JsObject -> string;
  ts_getDefaultLibFileName : JsObject -> string;
  (** [FileUtils.pathJoin] *)
  pathJoin : string -> string -> string;
  (** [fileSystemWrapper.getStandardizedAbsolutePath] *)
  getStandardizedAbsolutePath : string -> string;
  (** which names [errors.throwIfNotStringOrWhitespace] rejects *)
  isNullOrWhitespace : string -> bool;
  (** [replaceSourceFileTextForRename] and [getTextFromFormattingEdits]
      of [manipulation], as functions of the file's text *)
  replaceSourceFileTextForRename :
    string -> list (handle ts_DocumentSpan) -> string -> string;
  getTextFromFormattingEdits : string -> list (handle ts_TextChange) -> string;
  (** [reference.getNode()] of [./results] *)
  ReferencedSymbolEntry_getNode : GlobalContainer -> ts_ReferenceEntry -> Node;
  (** the default tables of [fillDefaultFormatCodeSettings] and
      [fillDefaultEditorSettings] *)
  defaultFormatCodeSettings : GlobalContainer -> list (string * value);
  defaultEditorSettings : GlobalContainer -> list (string * value)
}.

Section Facade.

Context {collaborators : Collaborators}.

(** ** resetProgram *)

Definition resetProgram : M unit :=
  modify (fun ls =>
    with_program
      (Program_reset (getSourceFilePaths (global ls)) CompilerHostRef (program ls))
      ls).

Definition getProgram : M Program := gets program.

(** A query against the program: [getProgram().compilerObject]. *)
Definition queryProgram : M (list string) :=
  p ← getProgram;
  let '(names, p') := Program_compilerObject p in
  modify (with_program p');;
  mret names.

(** ** Notifications of the source-file cache *)

Definition runHandler (h : handler) : M unit :=
  match h with
  | ResetProgramHandler => resetProgram
  end.

Fixpoint fire (hs : list handler) : M unit :=
  match hs with
  | [] => mret tt
  | h :: hs' => runHandler h;; fire hs'
  end.

(** Modelled from the spec: the cache mutators of [compilerFactory] are
    not part of the sources at hand.  The file tracking collaborator
    fires its "file added" notification synchronously, before the
    mutating call returns. *)
Definition addSourceFileToCache (filePath text : string) : M unit :=
  modify (fun ls =>
    with_global (with_cache (<[filePath := text]> (sourceFileCache (global ls))) (global ls)) ls);;
  hs ← gets (fun ls => sourceFileAdded (global ls));
  fire hs.

(** Modelled from the spec: removal from the cache of
    [compilerFactory]; the "file removed" notification is fired
    synchronously, before the mutating call returns. *)
Definition removeSourceFileFromCache (filePath : string) : M unit :=
  modify (fun ls =>
    with_global (with_cache (delete filePath (sourceFileCache (global ls))) (global ls)) ls);;
  hs ← gets (fun ls => sourceFileRemoved (global ls));
  fire hs.

(** Modelled from the spec: [addOrGetSourceFileFromFilePath] is the
    collaborator's "get-or-load file at path": the cached file when
    there is one, else the file loaded from backing storage into the
    cache, else nothing.  The result is the file's full text. *)
Definition addOrGetSourceFileFromFilePath (filePath : string) : M (option string) :=
  g ← gets global;
  match getSourceFileFromCacheFromFilePath g filePath with
  | Some text => mret (Some text)
  | None =>
      match fs_readFileSync (fileSystemWrapper g) filePath with
      | Some text => addSourceFileToCache filePath text;; mret (Some text)
      | None => mret None
      end
  end.

(** ** The language service host *)

Definition fileExistsSync (g : GlobalContainer) (path : string) : bool :=
  containsSourceFileAtPath g path || fs_fileExistsSync (fileSystemWrapper g) path.

Definition languageServiceHost_getCompilationSettings : M JsObject :=
  gets (fun ls => compilerOptions (global ls)).

Definition languageServiceHost_getNewLine : M string :=
  gets (fun ls => newLineKindAsString (global ls)).

Definition languageServiceHost_getScriptFileNames : M (list string) :=
  gets (fun ls => getSourceFilePaths (global ls)).

(** [(version++).toString()] *)
Definition languageServiceHost_getScriptVersion (fileName : string) : M string :=
  v ← gets version;
  modify (with_version (v + 1)%N);;
  mret (pretty v).

(** The snapshot is the text handed to [ts.ScriptSnapshot.fromString];
    [None] is [undefined]. *)
Definition languageServiceHost_getScriptSnapshot (fileName : string) : M (option string) :=
  g ← gets global;
  if negb (fileExistsSync g fileName) then mret None
  else
    sf ← addOrGetSourceFileFromFilePath fileName;
    match sf with
    | Some text => mret (Some text)
    | None => throw (TypeError "Cannot read property 'getFullText' of undefined")
    end.

Definition languageServiceHost_getCurrentDirectory : M string :=
  gets (fun ls => fs_currentDirectory (fileSystemWrapper (global ls))).

Definition languageServiceHost_getDefaultLibFileName (options : JsObject) : M string :=
  g ← gets global;
  if fs_isDefaultFileSystemHost (fileSystemWrapper g)
  then mret (ts_getDefaultLibFilePath (compilerOptions g))
  else
    mret (pathJoin (fs_currentDirectory (fileSystemWrapper g))
            ("node_modules/typescript/lib/" +:+ ts_getDefaultLibFileName (compilerOptions g))).

Definition languageServiceHost_useCaseSensitiveFileNames : M bool := mret true.

Definition languageServiceHost_readFile (path : string) : M (option string) :=
  g ← gets global;
  if containsSourceFileAtPath g path
  then
    match getSourceFileFromCacheFromFilePath g path with
    | Some text => mret (Some text)
    | None => throw (TypeError "Cannot read property 'getFullText' of undefined")
    end
  else mret (fs_readFileSync (fileSystemWrapper g) path).

Definition languageServiceHost_fileExists (path : string) : M bool :=
  gets (fun ls => fileExistsSync (global ls) path).


(** ** The compiler host *)

Definition compilerHost_getSourceFile (fileName : string) : M (option string) :=
  addOrGetSourceFileFromFilePath fileName.

Definition compilerHost_getDefaultLibFileName (options : JsObject) : M string :=
  languageServiceHost_getDefaultLibFileName options.

Definition compilerHost_getCurrentDirectory : M string :=
  languageServiceHost_getCurrentDirectory.

Definition compilerHost_getDirectories (path : string) : M (list string) := mret [].

Definition compilerHost_fileExists (fileName : string) : M bool :=
  languageServiceHost_fileExists fileName.

Definition compilerHost_readFile (fileName : string) : M (option string) :=
  languageServiceHost_readFile fileName.

Definition compilerHost_getCanonicalFileName (fileName : string) : M string :=
  mret (getStandardizedAbsolutePath fileName).

Definition compilerHost_useCaseSensitiveFileNames : M bool :=
  languageServiceHost_useCaseSensitiveFileNames.

Definition compilerHost_getNewLine : M string := languageServiceHost_getNewLine.


(** ** The constructor *)

Definition constructor (g : GlobalContainer) : LanguageService :=
  let program := Program_new (getSourceFilePaths g) CompilerHostRef in
  let g' :=
    with_handlers (sourceFileAdded g ++ [ResetProgramHandler])
                  (sourceFileRemoved g ++ [ResetProgramHandler]) g in
  mkLS g' 0%N program [].

(** ** Calls into the engine *)

(** The host's reply to a callback of the engine. *)
Definition hostReply {R : Type} (c : hostCall R) : M R :=
  match c with
  | GetCompilationSettings => languageServiceHost_getCompilationSettings
  | GetNewLine => languageServiceHost_getNewLine
  | GetScriptFileNames => languageServiceHost_getScriptFileNames
  | GetScriptVersion fileName => languageServiceHost_getScriptVersion fileName
  | GetScriptSnapshot fileName => languageServiceHost_getScriptSnapshot fileName
  | GetCurrentDirectory => languageServiceHost_getCurrentDirectory
  | GetDefaultLibFileName options => languageServiceHost_getDefaultLibFileName options
  | UseCaseSensitiveFileNames => languageServiceHost_useCaseSensitiveFileNames
  | ReadFile path => languageServiceHost_readFile path
  | FileExists path => languageServiceHost_fileExists path
  end.

(** The engine at work: each callback runs against the current state,
    an exception of a callback or of the engine propagates. *)
Fixpoint serve {A : Type} (p : engineProgram A) : M A :=
  match p with
  | Answer (Returns a) => mret a
  | Answer (Throws msg) => throw (EngineError msg)
  | Ask c k =>
      fun ls =>
        match hostReply c ls with
        | (ls', inr r) => serve (k r) ls'
        | (ls', inl e) => (ls', inl e)
        end
  end.

(** A call into the engine is recorded, then served. *)
Definition callEngine {A} (c : engineCall) (p : engineProgram A) : M A :=
  modify (fun ls => with_engineCalls (engineCalls ls ++ [c]) ls);;
  serve p.

(** ** The query facade *)

Definition throwIfNotStringOrWhitespace (value argName : string) : M unit :=
  if isNullOrWhitespace value then throw (ArgumentNullOrWhitespaceError argName)
  else mret tt.

Definition _getFilePathFromFilePathOrSourceFile (x : filePathOrSourceFile) : M string :=
  let filePath :=
    match x with
    | OfFilePath p => getStandardizedAbsolutePath p
    | OfSourceFile sourceFile => getFilePath sourceFile
    end in
  g ← gets global;
  if negb (containsSourceFileAtPath g filePath) then throw (FileNotFoundError filePath)
  else mret filePath.

Definition _getFilledSettings (settings : JsObject) : M JsObject :=
  if truthy (prop settings "_filled") then mret settings
  else
    g ← gets global;
    let settings := assign (formatCodeSettings g) settings in
    let settings := fillDefaults (defaultFormatCodeSettings g) settings in
    mret (<["_filled" := VBool true]> settings).

(** *** Definitions, implementations, references *)

Definition getDefinitionsAtPosition (sourceFile : SourceFile) (pos : Z)
    : M (list (handle ts_DefinitionInfo)) :=
  results ← callEngine (CallGetDefinitionAtPosition (getFilePath sourceFile) pos)
              (ts_getDefinitionAtPosition E (getFilePath sourceFile) pos);
  mret (Handle <$> orEmpty results).

Definition getDefinitions (node : Node) : M (list (handle ts_DefinitionInfo)) :=
  getDefinitionsAtPosition (node_sourceFile node) (node_start node).

Definition getImplementationsAtPosition (sourceFile : SourceFile) (pos : Z)
    : M (list (handle ts_DocumentSpan)) :=
  results ← callEngine (CallGetImplementationAtPosition (getFilePath sourceFile) pos)
              (ts_getImplementationAtPosition E (getFilePath sourceFile) pos);
  mret (Handle <$> orEmpty results).

Definition getImplementations (node : Node) : M (list (handle ts_DocumentSpan)) :=
  getImplementationsAtPosition (node_sourceFile node) (node_start node).

Definition findReferencesAtPosition (sourceFile : SourceFile) (pos : Z)
    : M (list (handle ts_ReferencedSymbol)) :=
  results ← callEngine (CallFindReferences (getFilePath sourceFile) pos)
              (ts_findReferences E (getFilePath sourceFile) pos);
  mret (Handle <$> orEmpty results).

Definition findReferences (node : Node) : M (list (handle ts_ReferencedSymbol)) :=
  findReferencesAtPosition (node_sourceFile node) (node_start node).

(** The inner [for] of the generator: what has been yielded so far,
    extended by the references of one group. *)
Definition yieldReferences (g : GlobalContainer) (isAlias : bool)
    (references : list ts_ReferenceEntry) (yielded : list Node) : list Node :=
  foldl (fun out reference =>
           if isAlias || negb (re_isDefinition reference)
           then out ++ [ReferencedSymbolEntry_getNode g reference]
           else out)
        yielded references.

(** The generator [getReferencingNodes], drained by [ArrayUtils.from]. *)
Definition getReferencingNodes (g : GlobalContainer)
    (references : list (handle ts_ReferencedSymbol)) : list Node :=
  foldl (fun out referenceSymbol =>
           let isAlias :=
             String.eqb (di_kind (rs_definition (compilerObject referenceSymbol)))
                        ScriptElementKind_alias in
           yieldReferences g isAlias (rs_references (compilerObject referenceSymbol)) out)
        [] references.

Definition getDefinitionReferencingNodes (node : Node) : M (list Node) :=
  references ← findReferences node;
  g ← gets global;
  mret (getReferencingNodes g references).

(** *** Rename *)

Definition findRenameLocations (node : Node) : M (list (handle ts_DocumentSpan)) :=
  let sourceFile := node_sourceFile node in
  renameLocations ←
    callEngine
      (CallFindRenameLocations (getFilePath sourceFile) (node_start node) false false)
      (ts_findRenameLocations E (getFilePath sourceFile) (node_start node) false false);
  mret (Handle <$> orEmpty renameLocations).

(** One grouped text replacement in one file. *)
Definition replaceTextOf (sourceFile : string)
    (locations : list (handle ts_DocumentSpan)) (newName : string) : M unit :=
  modify (fun ls =>
    with_global
      (with_cache
         (alter (fun text => replaceSourceFileTextForRename text locations newName)
                sourceFile (sourceFileCache (global ls)))
         (global ls))
      ls).

(** The second [for] of [renameLocations]. *)
Fixpoint replaceEach (entries : list (string * list (handle ts_DocumentSpan)))
    (newName : string) : M unit :=
  match entries with
  | [] => mret tt
  | (sourceFile, locations) :: rest =>
      replaceTextOf sourceFile locations newName;;
      replaceEach rest newName
  end.

Definition renameLocations (renameLocations : list (handle ts_DocumentSpan))
    (newName : string) : M unit :=
  let renameLocationsBySourceFile :=
    foldl (fun cache renameLocation =>
             pushInto (ds_fileName (compilerObject renameLocation)) renameLocation cache)
          [] renameLocations in
  replaceEach renameLocationsBySourceFile newName.

Definition renameNode (node : Node) (newName : string) : M unit :=
  throwIfNotStringOrWhitespace newName "newName";;
  if String.eqb (node_text node) newName then mret tt
  else
    locations ← findRenameLocations node;
    renameLocations locations newName.

(** *** Formatting *)

Definition getFormattingEditsForRange (filePath : string) (range : Z * Z)
    (settings : JsObject) : M (list (handle ts_TextChange)) :=
  filled ← _getFilledSettings settings;
  edits ← callEngine (CallGetFormattingEditsForRange filePath range.1 range.2)
            (ts_getFormattingEditsForRange E filePath range.1 range.2 filled);
  mret (Handle <$> orEmpty edits).

Definition getFormattingEditsForDocument (filePath : string) (settings : JsObject)
    : M (list (handle ts_TextChange)) :=
  filled ← _getFilledSettings settings;
  edits ← callEngine (CallGetFormattingEditsForDocument filePath)
            (ts_getFormattingEditsForDocument E filePath filled);
  mret (Handle <$> orEmpty edits).

Definition getFormattedDocumentText (filePath : string) (settings : JsObject) : M string :=
  g ← gets global;
  match getSourceFileFromCacheFromFilePath g filePath with
  | None => throw (FileNotFoundError filePath)
  | Some sourceFile =>
      settings ← _getFilledSettings settings;
      formattingEdits ← getFormattingEditsForDocument filePath settings;
      let newText := getTextFromFormattingEdits sourceFile formattingEdits in
      let newLineChar := toJsString (prop settings "newLineCharacter") in
      let newText :=
        if truthy (prop settings "ensureNewLineAtEndOfFile")
           && negb (endsWith newText newLineChar)
        then newText +:+ newLineChar
        else newText in
      mret (replaceLineTerminators newLineChar newText)
  end.

(** *** Emit, indentation, organize imports *)

Definition getEmitOutput (filePathOrSourceFile : filePathOrSourceFile)
    (emitOnlyDtsFiles : option bool) : M EmitOutput :=
  filePath ← _getFilePathFromFilePathOrSourceFile filePathOrSourceFile;
  output ← callEngine (CallGetEmitOutput filePath)
             (ts_getEmitOutput E filePath emitOnlyDtsFiles);
  mret (mkEmitOutputHandle filePath output).

Definition getIdentationAtPosition (filePathOrSourceFile : filePathOrSourceFile)
    (position : Z) (settings : option JsObject) : M Z :=
  filePath ← _getFilePathFromFilePathOrSourceFile filePathOrSourceFile;
  g ← gets global;
  let settings :=
    match settings with
    | None => editorSettings g
    | Some settings => fillDefaults (defaultEditorSettings g) settings
    end in
  callEngine (CallGetIndentationAtPosition filePath position)
    (ts_getIndentationAtPosition E filePath position settings).

Definition organizeImports (filePathOrSourceFile : filePathOrSourceFile)
    (settings : option JsObject) : M (list (handle ts_FileTextChanges)) :=
  fileName ← _getFilePathFromFilePathOrSourceFile filePathOrSourceFile;
  filled ← _getFilledSettings (default ∅ settings);
  changes ← callEngine (CallOrganizeImports fileName)
              (ts_organizeImports E fileName filled);
  mapOrTypeError Handle changes.

End Facade.

(** ** Derived views used to state the properties *)

Section Views.

Context {collaborators : Collaborators}.

(** The path a "source file or path" argument stands for. *)
Definition filePathOf (x : filePathOrSourceFile) : string :=
  match x with
  | OfFilePath p => getStandardizedAbsolutePath p
  | OfSourceFile sourceFile => getFilePath sourceFile
  end.

(** The object a call of [_getFilledSettings] returns. *)
Definition filledSettings (g : GlobalContainer) (settings : JsObject) : JsObject :=
  if truthy (prop settings "_filled") then settings
  else
    <["_filled" := VBool true]>
      (fillDefaults (defaultFormatCodeSettings g) (assign (formatCodeSettings g) settings)).

(** *** Sessions: the file set changes and the program is queried *)

Inductive sessionEvent :=
| AddSourceFile (filePath text : string)
| RemoveSourceFile (filePath : string)
| SnapshotRequest (fileName : string)
| ProgramQuery.

Definition runEvent (e : sessionEvent) : M unit :=
  match e with
  | AddSourceFile filePath text => addSourceFileToCache filePath text
  | RemoveSourceFile filePath => removeSourceFileFromCache filePath
  | SnapshotRequest fileName => languageServiceHost_getScriptSnapshot fileName;; mret tt
  | ProgramQuery => queryProgram;; mret tt
  end.

Fixpoint runEvents (es : list sessionEvent) (ls : LanguageService) : LanguageService :=
  match es with
  | [] => ls
  | e :: rest => runEvents rest (after (runEvent e) ls)
  end.

(** *** What the engine sees of the versions

    The engine asks for versions while files are edited in place.  An
    observation is the version it was told for a file together with
    the text the file had at that moment. *)

Inductive hostStep :=
| VersionRequest (fileName : string)
| TextEdit (filePath newText : string).

Record observation := mkObservation {
  obs_version : string;
  obs_fileName : string;
  obs_text : option string
}.

Definition setSourceFileText (filePath newText : string) (ls : LanguageService)
    : LanguageService :=
  with_global
    (with_cache (alter (fun _ => newText) filePath (sourceFileCache (global ls))) (global ls))
    ls.

Fixpoint observations (steps : list hostStep) (ls : LanguageService) : list observation :=
  match steps with
  | [] => []
  | VersionRequest fileName :: rest =>
      match languageServiceHost_getScriptVersion fileName ls with
      | (ls', inr v) =>
          mkObservation v fileName (sourceFileCache (global ls) !! fileName)
            :: observations rest ls'
      | (ls', inl _) => observations rest ls'
      end
  | TextEdit filePath newText :: rest =>
      observations rest (setSourceFileText filePath newText ls)
  end.

(** *** Auxiliary notions for the run equations *)

(** The state after a call into the engine was recorded, and what the
    caller gets from its outcome. *)
Definition called (c : engineCall) (ls : LanguageService) : LanguageService :=
  with_engineCalls (engineCalls ls ++ [c]) ls.

Definition answered {A} (o : outcome A) : error + A :=
  match o with
  | Returns a => inr a
  | Throws msg => inl (EngineError msg)
  end.

Definition mapResult {A B} (f : A -> B) (r : error + A) : error + B :=
  match r with
  | inl e => inl e
  | inr a => inr (f a)
  end.

(** What the facade gets from the engine for a call served in state
    [ls]: the value returned, or the exception thrown. *)
Definition engineAnswer {A} (p : engineProgram A) (ls : LanguageService) : error + A :=
  result (serve p) ls.

(** What a list query of the facade makes of the engine's answer:
    [undefined] read as the empty list, each record wrapped in its
    handle; an exception propagates. *)
Definition normalised {A} (r : error + option (list A)) : error + list (handle A) :=
  mapResult (fun x => Handle <$> orEmpty x) r.

(** What organize-imports makes of the engine's answer:
    [changes.map(...)], which throws on [undefined]. *)
Definition mappedChanges (r : error + option (list ts_FileTextChanges))
    : error + list (handle ts_FileTextChanges) :=
  match r with
  | inr (Some changes) => inr (Handle <$> changes)
  | inr None => inl (TypeError "Cannot read property 'map' of undefined")
  | inl e => inl e
  end.

(** The method failed with the facade's file-not-found error. *)
Definition isFileNotFound {A} (r : error + A) : bool :=
  match r with
  | inl (FileNotFoundError _) => true
  | _ => false
  end.

(** The engine answered with no results: [undefined] or an empty
    list. *)
Definition emptyAnswer {A} (r : error + option (list A)) : Prop :=
  r = inr None \/ r = inr (Some []).

(** The state with the cache replaced, with the program reset against
    the current file set, and after the handlers [hs] were fired. *)
Definition cacheSet (c : gmap string string) (ls : LanguageService) : LanguageService :=
  with_global (with_cache c (global ls)) ls.

Definition resetNow (ls : LanguageService) : LanguageService :=
  with_program (mkProgram (getSourceFilePaths (global ls)) CompilerHostRef false) ls.

Definition fired (hs : list handler) (ls : LanguageService) : LanguageService :=
  match hs with
  | [] => ls
  | _ :: _ => resetNow ls
  end.

(** The invariant of a service built by the constructor: it is
    subscribed to both notifications and its program was made from the
    current file set. *)
Definition coherent (ls : LanguageService) : Prop :=
  sourceFileAdded (global ls) <> []
  /\ sourceFileRemoved (global ls) <> []
  /\ rootNames (program ls) = getSourceFilePaths (global ls)
  /\ programHost (program ls) = CompilerHostRef.

(** *** The statements of the specification, in its own words *)

(** The references that are not definition occurrences, or every
    occurrence when the group's definition is an alias binding. *)
Definition referencingNodes_as_specified (g : GlobalContainer)
    (groups : list ts_ReferencedSymbol) : list Node :=
  group ← groups;
  ReferencedSymbolEntry_getNode g <$>
    (if String.eqb (di_kind (rs_definition group)) ScriptElementKind_alias
     then rs_references group
     else filter (fun r => re_isDefinition r = false) (rs_references group)).

(** Edits applied, then every line terminator normalised, then one
    trailing newline appended if the text does not end with one. *)
Definition formattedText_as_specified (newLineChar : string) (ensureNewLine : bool)
    (editedText : string) : string :=
  let normalised := replaceLineTerminators newLineChar editedText in
  if ensureNewLine && negb (endsWith normalised newLineChar)
  then normalised +:+ newLineChar
  else normalised.

End Views.

(** ** A concrete session

    Two tracked files, [/a.ts] declaring [x] and [/b.ts] importing and
    using it, a virtual file system that also holds [/c.ts], and two
    engines.  The scripted one has the answers for [x]; like the
    TypeScript services it synchronises the root files before a query
    on the program, reads the snapshot of the file for a query on its
    syntax tree, and throws when it cannot find the file.  The silent
    one does the same and answers [undefined] to every list-valued
    query about a file it knows. *)

Definition isBlank (s : string) : bool :=
  forallb (fun c => bool_decide (c ∈ [" "%char; "009"%char; LF; CR]))
          (list_ascii_of_string s).

(** [text.slice(0, start) + newText + text.slice(start + length)] *)
Definition spliceText (text : string) (span : TextSpan) (newText : string) : string :=
  let start := Z.to_nat (span_start span) in
  let stop := Z.to_nat (span_start span + span_length span) in
  substring 0 start text +:+ newText +:+ substring stop (String.length text - stop) text.

(** Spans are applied from the last one to the first, so that offsets
    computed against the original text remain valid. *)
Definition renameInText (text : string) (locations : list (handle ts_DocumentSpan))
    (newName : string) : string :=
  foldr (fun l t => spliceText t (ds_textSpan (compilerObject l)) newName) text locations.

Definition applyEdits (text : string) (edits : list (handle ts_TextChange)) : string :=
  foldr (fun e t => spliceText t (tc_span (compilerObject e)) (tc_newText (compilerObject e)))
        text edits.

Definition nodeAt (g : GlobalContainer) (r : ts_ReferenceEntry) : Node :=
  mkNode (mkSourceFile (re_fileName r)) (span_start (re_textSpan r))
    (substring (Z.to_nat (span_start (re_textSpan r)))
               (Z.to_nat (span_length (re_textSpan r)))
               (default "" (sourceFileCache g !! re_fileName r))).

Definition x_in_a : TextSpan := mkSpan 6 1.
Definition x_imported_in_b : TextSpan := mkSpan 8 1.
Definition x_used_in_b : TextSpan := mkSpan 35 1.

Definition x_groups : list ts_ReferencedSymbol :=
  [ mkReferencedSymbol (mkDefinitionInfo "/a.ts" x_in_a "const" "x")
      [ mkReferenceEntry "/a.ts" x_in_a true;
        mkReferenceEntry "/b.ts" x_used_in_b false ];
    mkReferencedSymbol (mkDefinitionInfo "/b.ts" x_imported_in_b "alias" "x")
      [ mkReferenceEntry "/b.ts" x_imported_in_b true ] ].

Definition at_x {A} (fileName : string) (pos : Z) (answer : list A)
    : outcome (option (list A)) :=
  if String.eqb fileName "/a.ts" && (pos =? 6)%Z then Returns (Some answer)
  else Returns None.

Definition couldNotFindFile {A} (fileName : string) : outcome A :=
  Throws ("Could not find file: '" +:+ fileName +:+ "'.").

(** The engine brings its view of the root files up to date: for each
    it asks the snapshot and, when there is one, the version. *)
Fixpoint synchronizeFiles {A} (fileNames : list string) (k : engineProgram A)
    : engineProgram A :=
  match fileNames with
  | [] => k
  | fileName :: rest =>
      Ask (GetScriptSnapshot fileName) (fun snapshot =>
      match snapshot with
      | None => synchronizeFiles rest k
      | Some _ => Ask (GetScriptVersion fileName) (fun _ => synchronizeFiles rest k)
      end)
  end.

(** A query on the program: the root files are synchronised, and the
    file must be one of them. *)
Definition onProgram {A} (fileName : string) (answer : outcome A) : engineProgram A :=
  Ask GetScriptFileNames (fun fileNames =>
  synchronizeFiles fileNames
    (if bool_decide (fileName ∈ fileNames) then Answer answer
     else Answer (couldNotFindFile fileName))).

(** A query on the syntax tree of one file: the file is whatever the
    host has a snapshot for. *)
Definition onSyntaxTree {A} (fileName : string) (answer : outcome A) : engineProgram A :=
  Ask (GetScriptSnapshot fileName) (fun snapshot =>
  match snapshot with
  | None => Answer (couldNotFindFile fileName)
  | Some _ => Ask (GetScriptVersion fileName) (fun _ => Answer answer)
  end).

Definition scriptedEngine : tsLanguageService := {|
  ts_getDefinitionAtPosition f p :=
    onProgram f (at_x f p [mkDefinitionInfo "/a.ts" x_in_a "const" "x"]);
  ts_getImplementationAtPosition f p := onProgram f (at_x f p []);
  ts_findReferences f p := onProgram f (at_x f p x_groups);
  ts_findRenameLocations f p _ _ :=
    onProgram f
      (at_x f p [ mkDocumentSpan "/a.ts" x_in_a;
                  mkDocumentSpan "/b.ts" x_imported_in_b;
                  mkDocumentSpan "/b.ts" x_used_in_b ]);
  ts_getFormattingEditsForRange f _ _ _ := onSyntaxTree f (Returns (Some []));
  ts_getFormattingEditsForDocument f _ := onSyntaxTree f (Returns (Some []));
  ts_getEmitOutput f _ :=
    onProgram f (Returns (mkEmitOutput false [(f +:+ ".js", "")]));
  ts_getIndentationAtPosition f _ _ := onSyntaxTree f (Returns 0%Z);
  ts_organizeImports f _ := onProgram f (Returns (Some []))
|}.

(** An engine that finds nothing: it synchronises and throws like the
    scripted one, and answers [undefined] about every file it knows. *)
Definition silentEngine : tsLanguageService := {|
  ts_getDefinitionAtPosition f _ := onProgram f (Returns None);
  ts_getImplementationAtPosition f _ := onProgram f (Returns None);
  ts_findReferences f _ := onProgram f (Returns None);
  ts_findRenameLocations f _ _ _ := onProgram f (Returns None);
  ts_getFormattingEditsForRange f _ _ _ := onSyntaxTree f (Returns None);
  ts_getFormattingEditsForDocument f _ := onSyntaxTree f (Returns None);
  ts_getEmitOutput f _ := onProgram f (Returns (mkEmitOutput true []));
  ts_getIndentationAtPosition f _ _ := onSyntaxTree f (Returns 0%Z);
  ts_organizeImports f _ := onProgram f (Returns None)
|}.

Definition collaboratorsWith (engine : tsLanguageService) : Collaborators := {|
  E := engine;
  ts_getDefaultLibFilePath _ := "/usr/lib/node_modules/typescript/lib/lib.d.ts";
  ts_getDefaultLibFileName _ := "lib.d.ts";
  pathJoin a b := a +:+ "/" +:+ b;
  getStandardizedAbsolutePath p := p;
  isNullOrWhitespace := isBlank;
  replaceSourceFileTextForRename := renameInText;
  getTextFromFormattingEdits := applyEdits;
  ReferencedSymbolEntry_getNode := nodeAt;
  defaultFormatCodeSettings g :=
    [ ("newLineCharacter", VString (newLineKindAsString g));
      ("indentSize", VNumber 4);
      ("insertSpaceAfterCommaDelimiter", VBool true);
      ("ensureNewLineAtEndOfFile", VBool true) ];
  defaultEditorSettings g :=
    [ ("newLineCharacter", VString (newLineKindAsString g));
      ("indentSize", VNumber 4);
      ("tabSize", VNumber 4) ]
|}.

Definition scripted : Collaborators := collaboratorsWith scriptedEngine.
Definition silent : Collaborators := collaboratorsWith silentEngine.

Definition a_ts : string := "const x = 1;".
Definition b_ts : string := "import {x} from './a'; console.log(x);".

Definition sampleGlobal : GlobalContainer := {|
  sourceFileCache := {[ "/a.ts" := a_ts; "/b.ts" := b_ts ]};
  sourceFileAdded := [];
  sourceFileRemoved := [];
  fileSystemWrapper := mkFs {[ "/c.ts" := "export const c = 3;" ]} false "/project";
  compilerOptions := ∅;
  newLineKindAsString := String LF "";
  formatCodeSettings := {[ "indentSize" := VNumber 2 ]};
  editorSettings := {[ "indentSize" := VNumber 2 ]}
|}.

Definition sampleService : LanguageService := constructor sampleGlobal.

Definition x_node : Node := mkNode (mkSourceFile "/a.ts") 6 "x".

(** A file with Unix line ends, formatted for Windows line ends. *)

Definition unixFileService : LanguageService :=
  constructor (with_cache {[ "/u.ts" := String "a" (String LF "") ]} sampleGlobal).

Definition windowsSettings : JsObject :=
  {[ "newLineCharacter" := VString crlf; "ensureNewLineAtEndOfFile" := VBool true ]}.

(** ** Further views of the language service *)

(** The first loop of [renameLocations]: the locations keyed by source
    file, as [renameLocationsBySourceFile] holds them after the loop. *)
Definition renameLocationsBySourceFile (renameLocations : list (handle ts_DocumentSpan))
    : list (string * list (handle ts_DocumentSpan)) :=
  foldl (fun cache renameLocation =>
           pushInto (ds_fileName (compilerObject renameLocation)) renameLocation cache)
        [] renameLocations.

(** The locations of a list that lie in one file, in the order of the
    list. *)
Definition locationsIn (filePath : string) (locations : list (handle ts_DocumentSpan))
    : list (handle ts_DocumentSpan) :=
  filter (fun l => ds_fileName (compilerObject l) = filePath) locations.

(** What one round of the second loop of [renameLocations] does to the
    cache. *)
Definition replaceIn {collaborators : Collaborators} (newName : string)
    (cache : gmap string string) (entry : string * list (handle ts_DocumentSpan))
    : gmap string string :=
  alter (fun text => replaceSourceFileTextForRename text entry.2 newName) entry.1 cache.

(** [searchString] occurs in [str] at some offset. *)
Definition occursIn (searchString str : string) : Prop :=
  exists m, substring m (String.length searchString) str = searchString.

(** A session in which [/a.ts] is tracked and backing storage holds an
    older text under the same path. *)
Definition shadowedService : LanguageService :=
  constructor
    (mkGlobal (sourceFileCache sampleGlobal) [] []
       (mkFs {[ "/a.ts" := "const old = 0;" ]} false "/project")
       ∅ lf ∅ ∅).

(** * getClassViewModels

    [code-generation/getClassViewModels.ts]: the view models of the
    classes declared under [src/compiler]. *)

Record ClassDeclaration := mkClass {
  class_getName : string;
  (** [getSourceFile().getFilePath()] *)
  class_getSourceFilePath : string
}.

Record AstSourceFile := mkAstSourceFile {
  ast_getFilePath : string;
  ast_getClasses : list ClassDeclaration
}.

Record TsSimpleAst := mkAst {
  (** [getDiagnostics()], each by its [getMessageText()] *)
  ast_getDiagnostics : list string;
  ast_getSourceFiles : list AstSourceFile
}.

Record ClassViewModel (Mixin : Type) := mkClassViewModel {
  vm_name : string;
  vm_mixins : list Mixin;
  vm_path : string
}.
Arguments mkClassViewModel {Mixin} vm_name vm_mixins vm_path.
Arguments vm_name {Mixin} c.
Arguments vm_mixins {Mixin} c.
Arguments vm_path {Mixin} c.

(** [str.indexOf(searchString)] *)
Definition indexOf (str searchString : string) : Z :=
  match String.index 0 searchString str with
  | Some n => Z.of_nat n
  | None => (-1)%Z
  end.

(** The generator, drained: what it writes to the console and the view
    models it yields.  [getMixinViewModels] is defined in a module of
    its own and is a parameter. *)
Definition getClassViewModels {Mixin : Type}
    (getMixinViewModels : ClassDeclaration -> list Mixin) (ast : TsSimpleAst)
    : list (list string) * list (ClassViewModel Mixin) :=
  let console := [ast_getDiagnostics ast] in
  let compilerSourceFiles :=
    filter (fun f => (0 <= indexOf (ast_getFilePath f) "src/compiler")%Z)
           (ast_getSourceFiles ast) in
  let classes := foldl (fun a b => a ++ b) [] (ast_getClasses <$> compilerSourceFiles) in
  (console,
   (fun c => mkClassViewModel (class_getName c) (getMixinViewModels c)
                              (class_getSourceFilePath c)) <$> classes).

(** Every class a source file lists reports that file as its own. *)
Definition wellFormedAst (ast : TsSimpleAst) : Prop :=
  Forall (fun f =>
            Forall (fun c => class_getSourceFilePath c = ast_getFilePath f)
                   (ast_getClasses f))
         (ast_getSourceFiles ast).

Definition sampleAst : TsSimpleAst :=
  mkAst ["Cannot find name 'y'."]
    [ mkAstSourceFile "/repo/src/compiler/tools/LanguageService.ts"
        [mkClass "LanguageService" "/repo/src/compiler/tools/LanguageService.ts"];
      mkAstSourceFile "/repo/src/utils/StringUtils.ts"
        [mkClass "StringUtils" "/repo/src/utils/StringUtils.ts"];
      mkAstSourceFile "/repo/src/compiler/common/Node.ts"
        [mkClass "Node" "/repo/src/compiler/common/Node.ts";
         mkClass "SyntaxList" "/repo/src/compiler/common/Node.ts"] ].

(** * Properties *)

(** ** Settings objects *)

Lemma prop_setValueIfUndefined key' v o key :
  prop (setValueIfUndefined key' v o) key
  = if decide (key = key' /\ prop o key = VUndefined) then v else prop o key.
Proof.
  unfold setValueIfUndefined.
  destruct (decide (prop o key' = VUndefined)) as [Hu|Hd].
  - unfold prop at 1. destruct (decide (key = key')) as [->|Hne].
    + rewrite lookup_insert_eq. cbn. by rewrite decide_True.
    + rewrite lookup_insert_ne by done. rewrite decide_False; [done|]. by intros [? _].
  - rewrite decide_False; [done|]. intros [-> ?]. done.
Qed.

(** What the defaults do to a field depends on that field alone. *)
Lemma fillDefaults_prop_ext defaults : forall o o' key,
  prop o key = prop o' key ->
  prop (fillDefaults defaults o) key = prop (fillDefaults defaults o') key.
Proof.
  unfold fillDefaults.
  induction defaults as [|[k v] defaults IH]; intros o o' key H; [exact H|].
  cbn [foldl]. apply IH. cbn. rewrite !prop_setValueIfUndefined, H. reflexivity.
Qed.

Lemma fillDefaults_keeps defaults : forall o key,
  prop o key <> VUndefined -> prop (fillDefaults defaults o) key = prop o key.
Proof.
  unfold fillDefaults.
  induction defaults as [|[k v] defaults IH]; intros o key H; [reflexivity|].
  cbn [foldl].
  assert (Hs : prop (setValueIfUndefined k v o) key = prop o key).
  { rewrite prop_setValueIfUndefined. rewrite decide_False; [done|]. by intros [_ ?]. }
  rewrite IH; cbn; rewrite Hs; done.
Qed.

Lemma prop_assign a b key :
  prop (assign a b) key = match b !! key with Some v => v | None => prop a key end.
Proof.
  unfold prop, assign. rewrite lookup_union.
  destruct (b !! key), (a !! key); reflexivity.
Qed.

(** ** Versions *)

Lemma getScriptVersion_run fileName ls :
  languageServiceHost_getScriptVersion fileName ls
  = (with_version (version ls + 1)%N ls, inr (pretty (version ls))).
Proof. reflexivity. Qed.

Lemma observations_versions steps : forall ls,
  obs_version <$> observations steps ls
  = (fun k => pretty (version ls + N.of_nat k)%N)
      <$> seq 0 (length (observations steps ls)).
Proof.
  induction steps as [|[fileName|filePath newText] steps IH]; intros ls.
  - reflexivity.
  - cbn [observations]. rewrite getScriptVersion_run. cbn [fmap list_fmap length seq].
    rewrite N.add_0_r. f_equal.
    fold (fmap (M:=list) obs_version). rewrite IH. cbn [version with_version].
    rewrite <- fmap_S_seq, <- list_fmap_compose. apply list_fmap_ext.
    intros _ k _. cbn. f_equal. lia.
  - cbn [observations]. rewrite IH. reflexivity.
Qed.

Lemma version_string_inj (v : N) :
  Inj (=) (=) (fun k : nat => pretty (v + N.of_nat k)%N).
Proof. intros j k H. apply (inj pretty) in H. lia. Qed.

(** C2. [getScriptVersion] returns the counter and increments it,
    whatever the path.  Hence, along any run of version requests
    interleaved with edits of the files, the i-th version the engine is
    told is the decimal of (start + i): the versions increase strictly,
    none is told twice, and two observations with the same version are
    one and the same observation, so they carry the same file and the
    same text. *)
Theorem script_versions_strictly_increase
    (steps : list hostStep) (ls : LanguageService) :
  let obs := observations steps ls in
  (forall fileName,
      result (languageServiceHost_getScriptVersion fileName) ls = inr (pretty (version ls))
      /\ after (languageServiceHost_getScriptVersion fileName) ls
         = with_version (version ls + 1)%N ls)
  /\ (forall i o, obs !! i = Some o -> obs_version o = pretty (version ls + N.of_nat i)%N)
  /\ (forall i j oi oj, obs !! i = Some oi -> obs !! j = Some oj -> i < j ->
        exists ni nj : N,
          obs_version oi = pretty ni /\ obs_version oj = pretty nj /\ (ni < nj)%N)
  /\ NoDup (obs_version <$> obs)
  /\ (forall i j oi oj, obs !! i = Some oi -> obs !! j = Some oj ->
        obs_version oi = obs_version oj ->
        i = j /\ obs_fileName oi = obs_fileName oj /\ obs_text oi = obs_text oj).
Proof.
  intros obs.
  assert (Hnth : forall i o, obs !! i = Some o ->
                             obs_version o = pretty (version ls + N.of_nat i)%N).
  { intros i o Hi.
    assert (H : (obs_version <$> obs) !! i = Some (obs_version o))
      by (rewrite list_lookup_fmap, Hi; reflexivity).
    unfold obs in H. rewrite observations_versions, list_lookup_fmap in H.
    destruct (seq 0 _ !! i) as [k|] eqn:Hk; [|discriminate].
    apply lookup_seq in Hk as [-> _]. cbn in H. congruence. }
  split; [intros fileName; split; reflexivity|].
  split; [exact Hnth|].
  split.
  { intros i j oi oj Hi Hj Hlt. eexists _, _.
    split; [exact (Hnth _ _ Hi)|]. split; [exact (Hnth _ _ Hj)|]. lia. }
  split.
  { unfold obs. rewrite observations_versions.
    apply NoDup_fmap_2; [apply version_string_inj|apply NoDup_seq]. }
  intros i j oi oj Hi Hj Heq.
  rewrite (Hnth _ _ Hi), (Hnth _ _ Hj) in Heq.
  apply (inj pretty) in Heq. assert (i = j) by lia. subst j.
  rewrite Hi in Hj. injection Hj as ->. auto.
Qed.

Section HostProperties.

Context {collaborators : Collaborators}.

(** ** The two hosts *)

(** C8. Whatever options object either host is handed, the compile
    host and the language service host give the same default library
    path, the same case-sensitivity answer (always [true]) and the same
    newline string.  The library path is the engine's installed path
    when the file system is the real one, and otherwise
    [node_modules/typescript/lib/<lib file>] under the current
    directory. *)
Theorem hosts_agree (ls : LanguageService) (options options' : JsObject) :
  let g := global ls in
  compilerHost_getDefaultLibFileName options ls
  = languageServiceHost_getDefaultLibFileName options' ls
  /\ compilerHost_useCaseSensitiveFileNames ls
     = languageServiceHost_useCaseSensitiveFileNames ls
  /\ compilerHost_getNewLine ls = languageServiceHost_getNewLine ls
  /\ languageServiceHost_useCaseSensitiveFileNames ls = (ls, inr true)
  /\ languageServiceHost_getNewLine ls = (ls, inr (newLineKindAsString g))
  /\ languageServiceHost_getDefaultLibFileName options ls
     = (ls, inr (if fs_isDefaultFileSystemHost (fileSystemWrapper g)
                 then ts_getDefaultLibFilePath (compilerOptions g)
                 else pathJoin (fs_currentDirectory (fileSystemWrapper g))
                        ("node_modules/typescript/lib/"
                         +:+ ts_getDefaultLibFileName (compilerOptions g)))).
Proof.
  intros g.
  split; [reflexivity|]. split; [reflexivity|]. split; [reflexivity|].
  split; [reflexivity|]. split; [reflexivity|].
  unfold languageServiceHost_getDefaultLibFileName, mbind, M_bind, gets. fold g.
  by destruct (fs_isDefaultFileSystemHost (fileSystemWrapper g)).
Qed.

End HostProperties.

(** ** Notifications and the program *)

Lemma global_fired hs ls : global (fired hs ls) = global ls.
Proof. by destruct hs. Qed.

Lemma fire_run hs ls : fire hs ls = (fired hs ls, inr tt).
Proof.
  revert ls. induction hs as [|[] hs IH]; intros ls; [reflexivity|].
  cbn [fire]. unfold mbind, M_bind, runHandler, resetProgram, modify.
  rewrite IH. destruct hs; reflexivity.
Qed.

Lemma addSourceFileToCache_run filePath text ls :
  addSourceFileToCache filePath text ls
  = (fired (sourceFileAdded (global ls))
           (cacheSet (<[filePath := text]> (sourceFileCache (global ls))) ls), inr tt).
Proof.
  unfold addSourceFileToCache, mbind, M_bind, modify, gets.
  rewrite fire_run. reflexivity.
Qed.

Lemma removeSourceFileFromCache_run filePath ls :
  removeSourceFileFromCache filePath ls
  = (fired (sourceFileRemoved (global ls))
           (cacheSet (delete filePath (sourceFileCache (global ls))) ls), inr tt).
Proof.
  unfold removeSourceFileFromCache, mbind, M_bind, modify, gets.
  rewrite fire_run. reflexivity.
Qed.

Lemma addOrGetSourceFileFromFilePath_run filePath ls :
  addOrGetSourceFileFromFilePath filePath ls
  = match sourceFileCache (global ls) !! filePath with
    | Some text => (ls, inr (Some text))
    | None =>
        match fs_files (fileSystemWrapper (global ls)) !! filePath with
        | Some text =>
            (fired (sourceFileAdded (global ls))
                   (cacheSet (<[filePath := text]> (sourceFileCache (global ls))) ls),
             inr (Some text))
        | None => (ls, inr None)
        end
    end.
Proof.
  unfold addOrGetSourceFileFromFilePath, mbind, M_bind, gets.
  unfold getSourceFileFromCacheFromFilePath, fs_readFileSync.
  destruct (sourceFileCache (global ls) !! filePath); [reflexivity|].
  destruct (fs_files (fileSystemWrapper (global ls)) !! filePath); [|reflexivity].
  rewrite addSourceFileToCache_run. reflexivity.
Qed.

Lemma getScriptSnapshot_run fileName ls :
  languageServiceHost_getScriptSnapshot fileName ls
  = match sourceFileCache (global ls) !! fileName with
    | Some text => (ls, inr (Some text))
    | None =>
        match fs_files (fileSystemWrapper (global ls)) !! fileName with
        | Some text =>
            (fired (sourceFileAdded (global ls))
                   (cacheSet (<[fileName := text]> (sourceFileCache (global ls))) ls),
             inr (Some text))
        | None => (ls, inr None)
        end
    end.
Proof.
  unfold languageServiceHost_getScriptSnapshot, mbind, M_bind, gets.
  unfold fileExistsSync, containsSourceFileAtPath, fs_fileExistsSync.
  pose proof (addOrGetSourceFileFromFilePath_run fileName ls) as Hrun.
  destruct (sourceFileCache (global ls) !! fileName) eqn:Hc.
  - rewrite bool_decide_eq_true_2 by eauto. cbn. rewrite Hrun. reflexivity.
  - rewrite (bool_decide_eq_false_2 (is_Some None)) by (intros [? ?]; done).
    destruct (fs_files (fileSystemWrapper (global ls)) !! fileName) eqn:Hf.
    + rewrite bool_decide_eq_true_2 by eauto. cbn. rewrite Hrun. reflexivity.
    + rewrite bool_decide_eq_false_2 by (intros [? ?]; done). reflexivity.
Qed.

Lemma constructor_coherent g : coherent (constructor g).
Proof.
  unfold coherent, constructor. cbn. repeat split; try reflexivity.
  - by destruct (sourceFileAdded g).
  - by destruct (sourceFileRemoved g).
Qed.

Lemma fired_coherent hs ls :
  hs <> [] ->
  sourceFileAdded (global ls) <> [] -> sourceFileRemoved (global ls) <> [] ->
  coherent (fired hs ls).
Proof. intros Hhs Ha Hr. destruct hs; [done|]. by repeat split. Qed.

Lemma runEvent_coherent e ls : coherent ls -> coherent (after (runEvent e) ls).
Proof.
  intros (Ha & Hr & Hn & Hh). unfold after. destruct e as [p t|p|f|]; cbn [runEvent].
  - rewrite addSourceFileToCache_run. by apply fired_coherent.
  - rewrite removeSourceFileFromCache_run. by apply fired_coherent.
  - unfold mbind, M_bind. rewrite getScriptSnapshot_run.
    destruct (sourceFileCache (global ls) !! f); [by repeat split|].
    destruct (fs_files (fileSystemWrapper (global ls)) !! f); [|by repeat split].
    by apply fired_coherent.
  - cbn. by repeat split.
Qed.

Lemma runEvents_coherent es : forall ls, coherent ls -> coherent (runEvents es ls).
Proof.
  induction es as [|e es IH]; intros ls H; [exact H|].
  cbn [runEvents]. apply IH, runEvent_coherent, H.
Qed.

(** C9. In every state a constructed service reaches through
    additions, removals, snapshot loads and program queries, the
    program's file list is the current list of tracked paths, so a query
    against the program is answered from the current file set; and each
    further addition or removal, before it returns, resets the program
    with the file list as it is after that mutation. *)
Theorem program_follows_file_set (g : GlobalContainer) (es : list sessionEvent) :
  let ls := runEvents es (constructor g) in
  rootNames (program ls) = getSourceFilePaths (global ls)
  /\ result queryProgram ls = inr (getSourceFilePaths (global ls))
  /\ (forall filePath text,
        let ls' := after (addSourceFileToCache filePath text) ls in
        sourceFileCache (global ls') = <[filePath := text]> (sourceFileCache (global ls))
        /\ program ls' = mkProgram (getSourceFilePaths (global ls')) CompilerHostRef false)
  /\ (forall filePath,
        let ls' := after (removeSourceFileFromCache filePath) ls in
        sourceFileCache (global ls') = delete filePath (sourceFileCache (global ls))
        /\ program ls' = mkProgram (getSourceFilePaths (global ls')) CompilerHostRef false).
Proof.
  intros ls.
  destruct (runEvents_coherent es _ (constructor_coherent g)) as (Ha & Hr & Hn & Hh).
  fold ls in Ha, Hr, Hn, Hh.
  split; [exact Hn|]. split.
  { unfold result, queryProgram, getProgram, mbind, M_bind, gets. cbn. by rewrite Hn. }
  split.
  - intros p t ls'. unfold ls', after. rewrite addSourceFileToCache_run.
    destruct (sourceFileAdded (global ls)); [done|]. by split.
  - intros p ls'. unfold ls', after. rewrite removeSourceFileFromCache_run.
    destruct (sourceFileRemoved (global ls)); [done|]. by split.
Qed.

(** C10. For a path that is not cached but exists in backing storage,
    [getScriptSnapshot] returns the stored text and changes the state:
    afterwards the cache holds the file under that path and the path is
    among the tracked paths.  In any state, the snapshot is [undefined]
    exactly when the path is in neither the cache nor backing
    storage. *)
Theorem getScriptSnapshot_loads_from_storage
    (ls : LanguageService) (fileName text : string) :
  sourceFileCache (global ls) !! fileName = None ->
  fs_files (fileSystemWrapper (global ls)) !! fileName = Some text ->
  let ls' := after (languageServiceHost_getScriptSnapshot fileName) ls in
  result (languageServiceHost_getScriptSnapshot fileName) ls = inr (Some text)
  /\ sourceFileCache (global ls') = <[fileName := text]> (sourceFileCache (global ls))
  /\ containsSourceFileAtPath (global ls') fileName = true
  /\ fileName ∈ getSourceFilePaths (global ls')
  /\ ls' <> ls
  /\ (forall ls0 f,
        result (languageServiceHost_getScriptSnapshot f) ls0 = inr None
        <-> sourceFileCache (global ls0) !! f = None
            /\ fs_files (fileSystemWrapper (global ls0)) !! f = None).
Proof.
  intros Hc Hf ls'. unfold ls', result, after.
  rewrite getScriptSnapshot_run, Hc, Hf. cbn [fst snd]. rewrite global_fired. cbn.
  assert (Hl : <[fileName := text]> (sourceFileCache (global ls)) !! fileName = Some text)
    by apply lookup_insert_eq.
  split; [reflexivity|]. split; [reflexivity|]. split.
  { unfold containsSourceFileAtPath. cbn. apply bool_decide_eq_true_2. eauto. }
  split.
  { unfold getSourceFilePaths. cbn. apply list_elem_of_fmap.
    exists (fileName, text). split; [reflexivity|]. by apply elem_of_map_to_list. }
  split.
  { intros Heq. apply (f_equal (fun s => sourceFileCache (global s) !! fileName)) in Heq.
    rewrite global_fired in Heq. cbn in Heq. congruence. }
  intros ls0 f. rewrite getScriptSnapshot_run.
  destruct (sourceFileCache (global ls0) !! f);
    [|destruct (fs_files (fileSystemWrapper (global ls0)) !! f)];
    cbn; split; try done; intros [? ?]; done.
Qed.


Section FacadeProperties.

Context {collaborators : Collaborators}.

(** ** The engine at work *)

(** The record of calls plays no part in what the host replies. *)
Lemma hostReply_called {R} (h : hostCall R) c ls :
  hostReply h (called c ls) = (called c (hostReply h ls).1, (hostReply h ls).2).
Proof.
  destruct h; try reflexivity.
  - cbn [hostReply]. rewrite !getScriptSnapshot_run. cbn [global called with_engineCalls].
    destruct (sourceFileCache (global ls) !! fileName); [reflexivity|].
    destruct (fs_files (fileSystemWrapper (global ls)) !! fileName); [|reflexivity].
    by destruct (sourceFileAdded (global ls)).
  - cbn [hostReply]. unfold languageServiceHost_getDefaultLibFileName, mbind, M_bind, gets.
    cbn [global called with_engineCalls].
    by destruct (fs_isDefaultFileSystemHost (fileSystemWrapper (global ls))).
  - cbn [hostReply]. unfold languageServiceHost_readFile, mbind, M_bind, gets.
    cbn [global called with_engineCalls].
    destruct (containsSourceFileAtPath (global ls) path); [|reflexivity].
    by destruct (getSourceFileFromCacheFromFilePath (global ls) path).
Qed.

Lemma serve_called {A} (p : engineProgram A) c : forall ls,
  serve p (called c ls) = (called c (serve p ls).1, (serve p ls).2).
Proof.
  induction p as [[a|msg]|R h k IH]; intros ls; try reflexivity.
  cbn [serve]. rewrite hostReply_called.
  destruct (hostReply h ls) as [ls' [e|r]]; cbn [fst snd]; [reflexivity|apply IH].
Qed.

(** A call into the engine leaves the state in which the engine was
    served, with the call recorded, and gives the engine's answer. *)
Lemma callEngine_run {A} c (p : engineProgram A) ls :
  callEngine c p ls = (called c (after (serve p) ls), engineAnswer p ls).
Proof.
  unfold callEngine, mbind, M_bind, modify. fold (called c ls).
  by rewrite serve_called.
Qed.

Lemma serve_Answer {A} (o : outcome A) ls : serve (Answer o) ls = (ls, answered o).
Proof. by destruct o. Qed.

(** What a callback of the host can do to the state: the record of
    calls stays as it is and the files already tracked keep their
    text. *)
Lemma hostReply_keeps {R} (h : hostCall R) ls :
  engineCalls (after (hostReply h) ls) = engineCalls ls
  /\ (forall filePath text,
        sourceFileCache (global ls) !! filePath = Some text ->
        sourceFileCache (global (after (hostReply h) ls)) !! filePath = Some text).
Proof.
  unfold after. destruct h; try (by split).
  - cbn [hostReply]. rewrite getScriptSnapshot_run.
    destruct (sourceFileCache (global ls) !! fileName) eqn:Hc; [by split|].
    destruct (fs_files (fileSystemWrapper (global ls)) !! fileName); [|by split].
    cbn [fst snd]. split; [by destruct (sourceFileAdded (global ls))|].
    intros filePath text Htext. rewrite global_fired. cbn.
    rewrite lookup_insert_ne; [exact Htext|]. intros ->. congruence.
  - cbn [hostReply]. unfold languageServiceHost_getDefaultLibFileName, mbind, M_bind, gets.
    by destruct (fs_isDefaultFileSystemHost (fileSystemWrapper (global ls))).
  - cbn [hostReply]. unfold languageServiceHost_readFile, mbind, M_bind, gets.
    destruct (containsSourceFileAtPath (global ls) path); [|by split].
    by destruct (getSourceFileFromCacheFromFilePath (global ls) path).
Qed.

Lemma serve_keeps {A} (p : engineProgram A) : forall ls,
  engineCalls (after (serve p) ls) = engineCalls ls
  /\ (forall filePath text,
        sourceFileCache (global ls) !! filePath = Some text ->
        sourceFileCache (global (after (serve p) ls)) !! filePath = Some text).
Proof.
  induction p as [[a|msg]|R h k IH]; intros ls; try (by split).
  destruct (hostReply_keeps h ls) as (Hcalls & Hfiles).
  unfold after in *. cbn [serve].
  destruct (hostReply h ls) as [ls' [e|r]]; cbn [fst snd] in *; [by split|].
  destruct (IH r ls') as (Hcalls' & Hfiles').
  split; [congruence|].
  intros filePath text Htext. by apply Hfiles', Hfiles.
Qed.

Lemma engineCalls_called c ls : engineCalls (called c ls) = engineCalls ls ++ [c].
Proof. reflexivity. Qed.

Lemma global_called c ls : global (called c ls) = global ls.
Proof. reflexivity. Qed.

(** ** Run equations of the methods *)

Lemma getFilePath_run x ls :
  _getFilePathFromFilePathOrSourceFile x ls
  = (ls, if containsSourceFileAtPath (global ls) (filePathOf x)
         then inr (filePathOf x) else inl (FileNotFoundError (filePathOf x))).
Proof.
  unfold _getFilePathFromFilePathOrSourceFile, mbind, M_bind, gets. cbn.
  fold (filePathOf x). by destruct (containsSourceFileAtPath _ _).
Qed.

Lemma getFilledSettings_run settings ls :
  _getFilledSettings settings ls = (ls, inr (filledSettings (global ls) settings)).
Proof.
  unfold _getFilledSettings, filledSettings.
  by destruct (truthy (prop settings "_filled")).
Qed.

Lemma filledSettings_filled g settings :
  truthy (prop (filledSettings g settings) "_filled") = true.
Proof.
  unfold filledSettings. destruct (truthy (prop settings "_filled")) eqn:Hf; [exact Hf|].
  unfold prop. by rewrite lookup_insert_eq.
Qed.

Lemma filledSettings_idem g settings :
  filledSettings g (filledSettings g settings) = filledSettings g settings.
Proof. unfold filledSettings at 1. by rewrite filledSettings_filled. Qed.

(** Every list query has the same shape: one recorded call, the answer
    normalised and wrapped. *)
Lemma listQuery_run {A} c (p : engineProgram (option (list A))) ls :
  (results ← callEngine c p; mret (Handle <$> orEmpty results)) ls
  = (called c (after (serve p) ls), normalised (engineAnswer p ls)).
Proof.
  unfold mbind, M_bind. rewrite callEngine_run. unfold normalised.
  by destruct (engineAnswer p ls).
Qed.

Lemma getDefinitionsAtPosition_run sf pos ls :
  let p := ts_getDefinitionAtPosition E (getFilePath sf) pos in
  getDefinitionsAtPosition sf pos ls
  = (called (CallGetDefinitionAtPosition (getFilePath sf) pos) (after (serve p) ls),
     normalised (engineAnswer p ls)).
Proof. apply listQuery_run. Qed.

Lemma getImplementationsAtPosition_run sf pos ls :
  let p := ts_getImplementationAtPosition E (getFilePath sf) pos in
  getImplementationsAtPosition sf pos ls
  = (called (CallGetImplementationAtPosition (getFilePath sf) pos) (after (serve p) ls),
     normalised (engineAnswer p ls)).
Proof. apply listQuery_run. Qed.

Lemma findReferencesAtPosition_run sf pos ls :
  let p := ts_findReferences E (getFilePath sf) pos in
  findReferencesAtPosition sf pos ls
  = (called (CallFindReferences (getFilePath sf) pos) (after (serve p) ls),
     normalised (engineAnswer p ls)).
Proof. apply listQuery_run. Qed.

Lemma findRenameLocations_run node ls :
  let filePath := getFilePath (node_sourceFile node) in
  let p := ts_findRenameLocations E filePath (node_start node) false false in
  findRenameLocations node ls
  = (called (CallFindRenameLocations filePath (node_start node) false false)
       (after (serve p) ls),
     normalised (engineAnswer p ls)).
Proof. apply listQuery_run. Qed.

Lemma getFormattingEditsForRange_run filePath range settings ls :
  let p := ts_getFormattingEditsForRange E filePath range.1 range.2
             (filledSettings (global ls) settings) in
  getFormattingEditsForRange filePath range settings ls
  = (called (CallGetFormattingEditsForRange filePath range.1 range.2) (after (serve p) ls),
     normalised (engineAnswer p ls)).
Proof.
  unfold getFormattingEditsForRange. unfold mbind at 1, M_bind at 1.
  rewrite getFilledSettings_run. apply listQuery_run.
Qed.

Lemma getFormattingEditsForDocument_run filePath settings ls :
  let p := ts_getFormattingEditsForDocument E filePath
             (filledSettings (global ls) settings) in
  getFormattingEditsForDocument filePath settings ls
  = (called (CallGetFormattingEditsForDocument filePath) (after (serve p) ls),
     normalised (engineAnswer p ls)).
Proof.
  unfold getFormattingEditsForDocument. unfold mbind at 1, M_bind at 1.
  rewrite getFilledSettings_run. apply listQuery_run.
Qed.

Lemma getEmitOutput_run x emitOnlyDtsFiles ls :
  let p := ts_getEmitOutput E (filePathOf x) emitOnlyDtsFiles in
  getEmitOutput x emitOnlyDtsFiles ls
  = if containsSourceFileAtPath (global ls) (filePathOf x)
    then (called (CallGetEmitOutput (filePathOf x)) (after (serve p) ls),
          mapResult (mkEmitOutputHandle (filePathOf x)) (engineAnswer p ls))
    else (ls, inl (FileNotFoundError (filePathOf x))).
Proof.
  intros p. unfold getEmitOutput. unfold mbind at 1, M_bind at 1. rewrite getFilePath_run.
  destruct (containsSourceFileAtPath _ _); [|reflexivity].
  unfold mbind, M_bind. rewrite callEngine_run. fold p.
  by destruct (engineAnswer p ls).
Qed.

Lemma getIdentationAtPosition_run x position settings ls :
  let p := ts_getIndentationAtPosition E (filePathOf x) position
             match settings with
             | None => editorSettings (global ls)
             | Some s => fillDefaults (defaultEditorSettings (global ls)) s
             end in
  getIdentationAtPosition x position settings ls
  = if containsSourceFileAtPath (global ls) (filePathOf x)
    then (called (CallGetIndentationAtPosition (filePathOf x) position)
            (after (serve p) ls),
          engineAnswer p ls)
    else (ls, inl (FileNotFoundError (filePathOf x))).
Proof.
  intros p. unfold getIdentationAtPosition. unfold mbind at 1, M_bind at 1.
  rewrite getFilePath_run.
  destruct (containsSourceFileAtPath _ _); [|reflexivity].
  unfold mbind, M_bind, gets. rewrite callEngine_run. reflexivity.
Qed.

Lemma organizeImports_run x settings ls :
  let p := ts_organizeImports E (filePathOf x)
             (filledSettings (global ls) (default ∅ settings)) in
  organizeImports x settings ls
  = if containsSourceFileAtPath (global ls) (filePathOf x)
    then (called (CallOrganizeImports (filePathOf x)) (after (serve p) ls),
          mappedChanges (engineAnswer p ls))
    else (ls, inl (FileNotFoundError (filePathOf x))).
Proof.
  intros p. unfold organizeImports. unfold mbind at 1, M_bind at 1. rewrite getFilePath_run.
  destruct (containsSourceFileAtPath _ _); [|reflexivity].
  unfold mbind at 1, M_bind at 1. rewrite getFilledSettings_run.
  unfold mbind, M_bind. rewrite callEngine_run. fold p.
  by destruct (engineAnswer p ls) as [?|[?|]].
Qed.

Lemma getFormattedDocumentText_run filePath settings ls :
  getFormattedDocumentText filePath settings ls
  = match sourceFileCache (global ls) !! filePath with
    | None => (ls, inl (FileNotFoundError filePath))
    | Some text =>
        let filled := filledSettings (global ls) settings in
        let newLineChar := toJsString (prop filled "newLineCharacter") in
        let p := ts_getFormattingEditsForDocument E filePath filled in
        (called (CallGetFormattingEditsForDocument filePath) (after (serve p) ls),
         mapResult
           (fun edits =>
              let edited := getTextFromFormattingEdits text (Handle <$> orEmpty edits) in
              replaceLineTerminators newLineChar
                (if truthy (prop filled "ensureNewLineAtEndOfFile")
                    && negb (endsWith edited newLineChar)
                 then edited +:+ newLineChar else edited))
           (engineAnswer p ls))
    end.
Proof.
  unfold getFormattedDocumentText. unfold mbind at 1, M_bind at 1, gets at 1.
  unfold getSourceFileFromCacheFromFilePath.
  destruct (sourceFileCache (global ls) !! filePath) as [text|]; [|reflexivity].
  unfold mbind at 1, M_bind at 1. rewrite getFilledSettings_run.
  unfold mbind at 1, M_bind at 1. rewrite getFormattingEditsForDocument_run.
  rewrite filledSettings_idem. cbn zeta. unfold normalised.
  by destruct (engineAnswer _ ls).
Qed.

(** The file-not-found error survives the wrapping of a result, and the
    wrapping adds none. *)
Lemma isFileNotFound_mapResult {A B} (f : A -> B) (r : error + A) :
  isFileNotFound (mapResult f r) = isFileNotFound r.
Proof. by destruct r. Qed.

Lemma isFileNotFound_mappedChanges r :
  isFileNotFound (mappedChanges r) = isFileNotFound r.
Proof. by destruct r as [?|[?|]]. Qed.

(** ** Where the path is checked *)

(** C1 (as amended). The facade's file-not-found failure is raised
    exactly by the operations that resolve their "source file or path"
    argument first: emit, indentation and organize-imports fail with it
    when the resolved path is not tracked; when it is tracked the check
    passes, they give what the engine answers, and they fail with
    file-not-found only if serving the engine did.
    [getFormattedDocumentText] does the same against the cache.  The
    definition, implementation, reference, rename-location and
    formatting-edit queries make no such check: whatever the path, they
    return what the engine answers in the state at hand, with
    [undefined] read as the empty list.  What the engine itself returns
    or throws is never the file-not-found failure. *)
Theorem file_not_found_only_where_the_path_is_checked
    (ls : LanguageService) (x : filePathOrSourceFile) (filePath : string) :
  let tracked := containsSourceFileAtPath (global ls) (filePathOf x) in
  (tracked = false ->
     (forall emitOnlyDtsFiles,
         result (getEmitOutput x emitOnlyDtsFiles) ls
         = inl (FileNotFoundError (filePathOf x)))
     /\ (forall position settings,
         result (getIdentationAtPosition x position settings) ls
         = inl (FileNotFoundError (filePathOf x)))
     /\ (forall settings,
         result (organizeImports x settings) ls = inl (FileNotFoundError (filePathOf x))))
  /\ (tracked = true ->
     (forall emitOnlyDtsFiles,
         let p := ts_getEmitOutput E (filePathOf x) emitOnlyDtsFiles in
         result (getEmitOutput x emitOnlyDtsFiles) ls
         = mapResult (mkEmitOutputHandle (filePathOf x)) (engineAnswer p ls)
         /\ isFileNotFound (result (getEmitOutput x emitOnlyDtsFiles) ls)
            = isFileNotFound (engineAnswer p ls))
     /\ (forall position settings,
         let p := ts_getIndentationAtPosition E (filePathOf x) position
                    match settings with
                    | None => editorSettings (global ls)
                    | Some s => fillDefaults (defaultEditorSettings (global ls)) s
                    end in
         result (getIdentationAtPosition x position settings) ls = engineAnswer p ls)
     /\ (forall settings,
         let p := ts_organizeImports E (filePathOf x)
                    (filledSettings (global ls) (default ∅ settings)) in
         result (organizeImports x settings) ls = mappedChanges (engineAnswer p ls)
         /\ isFileNotFound (result (organizeImports x settings) ls)
            = isFileNotFound (engineAnswer p ls)))
  /\ (forall settings,
       match sourceFileCache (global ls) !! filePath with
       | None =>
           result (getFormattedDocumentText filePath settings) ls
           = inl (FileNotFoundError filePath)
       | Some _ =>
           isFileNotFound (result (getFormattedDocumentText filePath settings) ls)
           = isFileNotFound
               (engineAnswer (ts_getFormattingEditsForDocument E filePath
                                (filledSettings (global ls) settings)) ls)
       end)
  /\ (forall sourceFile pos,
       result (getDefinitionsAtPosition sourceFile pos) ls
       = normalised (engineAnswer
                       (ts_getDefinitionAtPosition E (getFilePath sourceFile) pos) ls)
       /\ result (getImplementationsAtPosition sourceFile pos) ls
          = normalised (engineAnswer
                          (ts_getImplementationAtPosition E (getFilePath sourceFile) pos) ls)
       /\ result (findReferencesAtPosition sourceFile pos) ls
          = normalised (engineAnswer
                          (ts_findReferences E (getFilePath sourceFile) pos) ls))
  /\ (forall node,
       result (findRenameLocations node) ls
       = normalised (engineAnswer
                       (ts_findRenameLocations E (getFilePath (node_sourceFile node))
                          (node_start node) false false) ls))
  /\ (forall range settings,
       result (getFormattingEditsForRange filePath range settings) ls
       = normalised (engineAnswer
                       (ts_getFormattingEditsForRange E filePath range.1 range.2
                          (filledSettings (global ls) settings)) ls)
       /\ result (getFormattingEditsForDocument filePath settings) ls
          = normalised (engineAnswer
                          (ts_getFormattingEditsForDocument E filePath
                             (filledSettings (global ls) settings)) ls))
  /\ (forall A (r : error + option (list A)),
       isFileNotFound (normalised r) = isFileNotFound r)
  /\ (forall A (o : outcome A), isFileNotFound (engineAnswer (Answer o) ls) = false).
Proof.
  intros tracked. unfold result.
  split.
  { intros Hu. subst tracked. repeat split; intros.
    - by rewrite getEmitOutput_run, Hu.
    - by rewrite getIdentationAtPosition_run, Hu.
    - by rewrite organizeImports_run, Hu. }
  split.
  { intros Ht. subst tracked. split; [|split]; intros.
    - rewrite getEmitOutput_run, Ht. cbn [snd].
      split; [reflexivity|apply isFileNotFound_mapResult].
    - by rewrite getIdentationAtPosition_run, Ht.
    - rewrite organizeImports_run, Ht. cbn [snd].
      split; [reflexivity|apply isFileNotFound_mappedChanges]. }
  split.
  { intros settings. rewrite getFormattedDocumentText_run.
    destruct (sourceFileCache (global ls) !! filePath); [|reflexivity].
    apply isFileNotFound_mapResult. }
  split.
  { intros sf pos.
    by rewrite getDefinitionsAtPosition_run, getImplementationsAtPosition_run,
      findReferencesAtPosition_run. }
  split.
  { intros node. by rewrite findRenameLocations_run. }
  split.
  { intros range settings.
    by rewrite getFormattingEditsForRange_run, getFormattingEditsForDocument_run. }
  split.
  { intros A r. apply isFileNotFound_mapResult. }
  intros A o. unfold engineAnswer, result. rewrite serve_Answer. by destruct o.
Qed.

(** ** Rename *)

(** C3. When the node's text equals the new name, [renameNode] leaves
    the state as it found it: no call into the engine is recorded (so no
    rename-location query is made) and the text of every file is what it
    was.  It returns normally, unless the name is blank, in which case
    the argument check throws before the comparison. *)
Theorem renameNode_to_own_text_is_noop
    (ls : LanguageService) (node : Node) (newName : string) :
  node_text node = newName ->
  after (renameNode node newName) ls = ls
  /\ engineCalls (after (renameNode node newName) ls) = engineCalls ls
  /\ sourceFileCache (global (after (renameNode node newName) ls))
     = sourceFileCache (global ls)
  /\ result (renameNode node newName) ls
     = if isNullOrWhitespace newName
       then inl (ArgumentNullOrWhitespaceError "newName") else inr tt.
Proof.
  intros Htext.
  assert (Hrun : renameNode node newName ls
                 = (ls, if isNullOrWhitespace newName
                        then inl (ArgumentNullOrWhitespaceError "newName") else inr tt)).
  { unfold renameNode, throwIfNotStringOrWhitespace, mbind, M_bind.
    destruct (isNullOrWhitespace newName); [reflexivity|]. cbn.
    rewrite (proj2 (String.eqb_eq _ _) Htext). reflexivity. }
  unfold after, result. rewrite Hrun. auto.
Qed.

(** ** Referencing nodes *)

Lemma yieldReferences_spec g isAlias references yielded :
  yieldReferences g isAlias references yielded
  = yielded ++ (ReferencedSymbolEntry_getNode g <$>
                  (if isAlias then references
                   else filter (fun r => re_isDefinition r = false) references)).
Proof.
  unfold yieldReferences. revert yielded.
  induction references as [|r rs IH]; intros yielded; cbn [foldl].
  - destruct isAlias; cbn; by rewrite app_nil_r.
  - rewrite IH. destruct isAlias; cbn [orb].
    + cbn. by rewrite <- app_assoc.
    + rewrite filter_cons. destruct (re_isDefinition r); cbn [negb].
      * by rewrite decide_False by done.
      * rewrite decide_True by done. cbn. by rewrite <- app_assoc.
Qed.

Lemma getReferencingNodes_from g groups yielded :
  foldl (fun out referenceSymbol =>
           let isAlias :=
             String.eqb (di_kind (rs_definition (compilerObject referenceSymbol)))
                        ScriptElementKind_alias in
           yieldReferences g isAlias (rs_references (compilerObject referenceSymbol)) out)
        yielded (Handle <$> groups)
  = yielded ++ referencingNodes_as_specified g groups.
Proof.
  revert yielded. induction groups as [|grp groups IH]; intros yielded.
  - cbn. by rewrite app_nil_r.
  - cbn [fmap list_fmap foldl]. fold (fmap (M:=list) (@Handle ts_ReferencedSymbol)).
    rewrite IH, yieldReferences_spec. cbn [compilerObject].
    unfold referencingNodes_as_specified. rewrite bind_cons. by rewrite <- app_assoc.
Qed.

Lemma getReferencingNodes_spec g groups :
  getReferencingNodes g (Handle <$> groups) = referencingNodes_as_specified g groups.
Proof. unfold getReferencingNodes. apply (getReferencingNodes_from g groups []). Qed.

(** C4. [getDefinitionReferencingNodes] yields, group after group and
    in the order of the engine's answer, the nodes of the references
    that are not definition occurrences, and of every occurrence when
    the group's definition is an alias binding.  A node is yielded if
    and only if it is the node of a reference of some group such that
    the group's definition is an alias or the reference is not a
    definition.  The nodes are made once the engine has answered. *)
Theorem getDefinitionReferencingNodes_spec (ls : LanguageService) (node : Node) :
  let query :=
    ts_findReferences E (getFilePath (node_sourceFile node)) (node_start node) in
  let answer := engineAnswer query ls in
  let g := global (after (serve query) ls) in
  result (getDefinitionReferencingNodes node) ls
  = mapResult (fun groups => referencingNodes_as_specified g (orEmpty groups)) answer
  /\ forall groups n,
       answer = inr groups ->
       (n ∈ referencingNodes_as_specified g (orEmpty groups)
        <-> exists group r,
              group ∈ orEmpty groups /\ r ∈ rs_references group
              /\ n = ReferencedSymbolEntry_getNode g r
              /\ (di_kind (rs_definition group) = ScriptElementKind_alias
                  \/ re_isDefinition r = false)).
Proof.
  intros query answer g. split.
  - unfold result, getDefinitionReferencingNodes, findReferences.
    unfold mbind at 1, M_bind at 1. rewrite findReferencesAtPosition_run.
    cbv zeta. fold query. fold answer. unfold normalised.
    destruct answer as [e|groups]; [reflexivity|].
    unfold mbind, M_bind, gets, mret, M_ret.
    cbn -[getReferencingNodes referencingNodes_as_specified serve].
    fold g. by rewrite getReferencingNodes_spec.
  - intros groups n _. unfold referencingNodes_as_specified.
    rewrite list_elem_of_bind. split.
    + intros (group & Hn & Hg). exists group.
      apply list_elem_of_fmap in Hn as (r & -> & Hr).
      destruct (String.eqb_spec (di_kind (rs_definition group)) ScriptElementKind_alias)
        as [Hk|Hk].
      * exists r. auto.
      * apply list_elem_of_filter in Hr as [Hd Hr]. exists r. auto.
    + intros (group & r & Hg & Hr & -> & Hc). exists group. split; [|exact Hg].
      apply list_elem_of_fmap. exists r. split; [reflexivity|].
      destruct (String.eqb_spec (di_kind (rs_definition group)) ScriptElementKind_alias)
        as [Hk|Hk]; [exact Hr|].
      apply list_elem_of_filter. destruct Hc; [done|auto].
Qed.

(** ** Empty answers *)

(** C5 (as amended). An empty or [undefined] answer of the engine to a
    definition, implementation, reference, rename-location or
    formatting-edit query gives an empty list; for organize-imports on a
    tracked file an empty list gives an empty list. *)
Theorem empty_engine_answers_become_empty_lists
    (ls : LanguageService) (sourceFile : SourceFile) (pos : Z) (node : Node)
    (filePath : string) (range : Z * Z) (settings : JsObject)
    (x : filePathOrSourceFile) (importSettings : option JsObject) :
  let filled := filledSettings (global ls) settings in
  (emptyAnswer
     (engineAnswer (ts_getDefinitionAtPosition E (getFilePath sourceFile) pos) ls) ->
     result (getDefinitionsAtPosition sourceFile pos) ls = inr [])
  /\ (emptyAnswer
        (engineAnswer (ts_getImplementationAtPosition E (getFilePath sourceFile) pos) ls) ->
     result (getImplementationsAtPosition sourceFile pos) ls = inr [])
  /\ (emptyAnswer (engineAnswer (ts_findReferences E (getFilePath sourceFile) pos) ls) ->
     result (findReferencesAtPosition sourceFile pos) ls = inr [])
  /\ (emptyAnswer
        (engineAnswer
           (ts_findRenameLocations E (getFilePath (node_sourceFile node))
              (node_start node) false false) ls) ->
     result (findRenameLocations node) ls = inr [])
  /\ (emptyAnswer
        (engineAnswer (ts_getFormattingEditsForRange E filePath range.1 range.2 filled) ls) ->
     result (getFormattingEditsForRange filePath range settings) ls = inr [])
  /\ (emptyAnswer (engineAnswer (ts_getFormattingEditsForDocument E filePath filled) ls) ->
     result (getFormattingEditsForDocument filePath settings) ls = inr [])
  /\ (containsSourceFileAtPath (global ls) (filePathOf x) = true ->
     engineAnswer
       (ts_organizeImports E (filePathOf x)
          (filledSettings (global ls) (default ∅ importSettings))) ls
     = inr (Some []) ->
     result (organizeImports x importSettings) ls = inr []).
Proof.
  intros filled. subst filled. unfold result.
  rewrite getDefinitionsAtPosition_run, getImplementationsAtPosition_run,
    findReferencesAtPosition_run, findRenameLocations_run,
    getFormattingEditsForRange_run, getFormattingEditsForDocument_run,
    organizeImports_run.
  cbv zeta. cbn [snd].
  repeat split; try (by intros [-> | ->]).
  intros -> ->. reflexivity.
Qed.

(** ** Filling the settings *)

(** C7. [_getFilledSettings] returns an already filled object as it
    is, so filling the result again changes nothing and filling twice is
    filling once.  For an object not yet filled and a field other than
    the flag: a value passed explicitly wins; else the process-wide
    default; and a field still unset after that has the value the
    table of hardcoded defaults gives it. *)
Theorem getFilledSettings_idempotent_with_precedence
    (ls : LanguageService) (settings : JsObject) :
  let g := global ls in
  let filled := filledSettings g settings in
  _getFilledSettings settings ls = (ls, inr filled)
  /\ (truthy (prop settings "_filled") = true -> filled = settings)
  /\ _getFilledSettings filled ls = (ls, inr filled)
  /\ (_getFilledSettings settings ≫= _getFilledSettings) ls = _getFilledSettings settings ls
  /\ (truthy (prop settings "_filled") = false ->
      forall key, key <> "_filled" ->
        (forall v, settings !! key = Some v -> v <> VUndefined -> prop filled key = v)
        /\ (settings !! key = None -> prop (formatCodeSettings g) key <> VUndefined ->
            prop filled key = prop (formatCodeSettings g) key)
        /\ (prop (assign (formatCodeSettings g) settings) key = VUndefined ->
            prop filled key = prop (fillDefaults (defaultFormatCodeSettings g) ∅) key)).
Proof.
  intros g filled.
  assert (Hrun : forall s, _getFilledSettings s ls = (ls, inr (filledSettings g s)))
    by (intros s; apply getFilledSettings_run).
  split; [apply Hrun|].
  split; [intros Hf; unfold filled, filledSettings; by rewrite Hf|].
  split; [unfold filled; by rewrite Hrun, filledSettings_idem|].
  split; [unfold mbind, M_bind; rewrite Hrun; cbv beta iota; by rewrite Hrun, filledSettings_idem|].
  intros Hu key Hkey.
  assert (Hfilled : prop filled key
          = prop (fillDefaults (defaultFormatCodeSettings g)
                    (assign (formatCodeSettings g) settings)) key).
  { unfold filled, filledSettings. rewrite Hu. unfold prop at 1.
    by rewrite lookup_insert_ne. }
  rewrite Hfilled. repeat split.
  - intros v Hv Hd. rewrite fillDefaults_keeps; rewrite prop_assign, Hv; done.
  - intros Hn Hd. rewrite fillDefaults_keeps; rewrite prop_assign, Hn; done.
  - intros Hn. apply fillDefaults_prop_ext. rewrite Hn. reflexivity.
Qed.

End FacadeProperties.

(** * The concrete session, evaluated *)

(** Renaming [x] to [y] asks the engine once and rewrites both files. *)
Example rename_x_to_y :
  let ls := after (renameNode (collaborators := scripted) x_node "y") sampleService in
  sourceFileCache (global ls)
  = {[ "/a.ts" := "const y = 1;"; "/b.ts" := "import {y} from './a'; console.log(y);" ]}
  /\ engineCalls ls = [CallFindRenameLocations "/a.ts" 6 false false].
Proof. split; vm_compute; reflexivity. Qed.

(** The nodes referencing [x]: the use in [/b.ts], and the import
    binding, which is the definition of an alias group. *)
Example nodes_referencing_x :
  result (getDefinitionReferencingNodes (collaborators := scripted) x_node) sampleService
  = inr [ mkNode (mkSourceFile "/b.ts") 35 "x"; mkNode (mkSourceFile "/b.ts") 8 "x" ].
Proof. reflexivity. Qed.

(** [/c.ts] is in backing storage and not tracked.  Asked for its
    formatting edits, the facade does not fail: the engine reads the
    file through the host, which loads it, and the answer is the empty
    list; the file is tracked afterwards.  A file that is nowhere makes
    the engine throw its own error, which is not the facade's
    file-not-found. *)
Lemma untracked_file_is_loaded_and_answered :
  containsSourceFileAtPath (global sampleService) "/c.ts" = false
  /\ result (getFormattingEditsForDocument (collaborators := scripted) "/c.ts" ∅)
       sampleService
     = inr []
  /\ containsSourceFileAtPath
       (global (after (getFormattingEditsForDocument (collaborators := scripted) "/c.ts" ∅)
                  sampleService))
       "/c.ts" = true
  /\ containsSourceFileAtPath (global sampleService) "/missing.ts" = false
  /\ result (getDefinitionsAtPosition (collaborators := scripted)
               (mkSourceFile "/missing.ts") 0) sampleService
     = inl (EngineError "Could not find file: '/missing.ts'.").
Proof. repeat split. Qed.

(** Renaming [x] to ["x"]. *)
Lemma renameNode_to_own_text_witness :
  after (renameNode (collaborators := scripted) x_node "x") sampleService = sampleService
  /\ result (renameNode (collaborators := scripted) x_node "x") sampleService = inr tt.
Proof.
  destruct (renameNode_to_own_text_is_noop (collaborators := scripted)
              sampleService x_node "x" eq_refl) as (H1 & _ & _ & H4).
  split; [exact H1|exact H4].
Defined.

(** The engine answers [undefined] to organize-imports on the tracked
    file [/a.ts]: the method throws. *)
Lemma organizeImports_undefined_answer_throws :
  containsSourceFileAtPath (global sampleService) "/a.ts" = true
  /\ engineAnswer (collaborators := silent)
       (ts_organizeImports (E (Collaborators := silent)) "/a.ts"
          (filledSettings (collaborators := silent) (global sampleService) ∅))
       sampleService
     = inr None
  /\ result (organizeImports (collaborators := silent) (OfFilePath "/a.ts") None)
       sampleService
     = inl (TypeError "Cannot read property 'map' of undefined").
Proof. repeat split. Qed.

(** The engine answers [undefined] to a definition query. *)
Lemma empty_engine_answers_witness :
  result (getDefinitionsAtPosition (collaborators := silent) (mkSourceFile "/a.ts") 0)
    sampleService
  = inr [].
Proof.
  destruct (empty_engine_answers_become_empty_lists (collaborators := silent)
              sampleService (mkSourceFile "/a.ts") 0 x_node "/a.ts" (0, 0)%Z ∅
              (OfFilePath "/a.ts") None) as (H & _).
  apply H. left. reflexivity.
Defined.

(** C6. [getFormattedDocumentText] looks for the trailing newline
    before it normalises the line terminators, not after.  The cached
    file [/u.ts] is one line ending in a line feed; it is formatted
    with carriage return plus line feed as the newline string and the
    ensure-newline setting on, and the engine has no edits.  Applying
    the edits, normalising the line terminators and then appending a
    newline if the text does not end with one gives the line and one
    line end; the method appends first and returns the line followed
    by two line ends. *)
Theorem unix_file_gets_two_line_ends :
  sourceFileCache (global unixFileService) !! "/u.ts" = Some (String "a" lf)
  /\ engineAnswer (collaborators := scripted)
       (ts_getFormattingEditsForDocument (E (Collaborators := scripted)) "/u.ts"
          (filledSettings (collaborators := scripted) (global unixFileService)
             windowsSettings))
       unixFileService
     = inr (Some [])
  /\ result (getFormattedDocumentText (collaborators := scripted) "/u.ts" windowsSettings)
       unixFileService
     = inr ("a" +:+ crlf +:+ crlf)
  /\ formattedText_as_specified crlf true (applyEdits (String "a" lf) [])
     = "a" +:+ crlf
  /\ result (getFormattedDocumentText (collaborators := scripted) "/u.ts" windowsSettings)
       unixFileService
     <> inr (formattedText_as_specified crlf true (applyEdits (String "a" lf) [])).
Proof. repeat split. discriminate. Qed.

(** The settings [{newLineCharacter, ensureNewLineAtEndOfFile}] filled
    in the sample session. *)
Lemma getFilledSettings_witness :
  let filled := filledSettings (collaborators := scripted) sampleGlobal windowsSettings in
  prop filled "newLineCharacter" = VString crlf
  /\ prop filled "indentSize" = VNumber 2
  /\ prop filled "insertSpaceAfterCommaDelimiter" = VBool true.
Proof.
  destruct (getFilledSettings_idempotent_with_precedence (collaborators := scripted)
              sampleService windowsSettings) as (_ & _ & _ & _ & H).
  specialize (H eq_refl). intros filled. split; [|split].
  - destruct (H "newLineCharacter" ltac:(done)) as (H1 & _ & _).
    exact (H1 (VString crlf) eq_refl ltac:(done)).
  - destruct (H "indentSize" ltac:(done)) as (_ & H2 & _).
    exact (H2 eq_refl ltac:(done)).
  - destruct (H "insertSpaceAfterCommaDelimiter" ltac:(done)) as (_ & _ & H3).
    exact (H3 eq_refl).
Defined.

(** [/c.ts] is on disk and not tracked. *)
Lemma getScriptSnapshot_loads_witness :
  result (languageServiceHost_getScriptSnapshot "/c.ts") sampleService
  = inr (Some "export const c = 3;")
  /\ containsSourceFileAtPath
       (global (after (languageServiceHost_getScriptSnapshot "/c.ts") sampleService))
       "/c.ts" = true.
Proof.
  destruct (getScriptSnapshot_loads_from_storage sampleService "/c.ts"
              "export const c = 3;" eq_refl eq_refl) as (H1 & _ & H3 & _).
  split; [exact H1|exact H3].
Defined.

(** * Further properties *)

(** ** Line terminators *)

Lemma string_ind2 (P : string -> Prop) :
  P "" -> (forall c, P (String c "")) ->
  (forall c c' s, P s -> P (String c' s) -> P (String c (String c' s))) ->
  forall s, P s.
Proof.
  intros H0 H1 H2 s.
  assert (H : P s /\ forall c, P (String c s)); [|tauto].
  induction s as [|c' s [IH1 IH2]]; split; auto.
Qed.

Lemma replaceLineTerminatorsFrom_cons nl before c rest :
  replaceLineTerminatorsFrom nl before (String c rest)
  = if Ascii.eqb c LF
    then expandReplacement nl lf before rest
         +:+ replaceLineTerminatorsFrom nl (before +:+ lf) rest
    else match rest with
         | String c' rest' =>
             if Ascii.eqb c CR && Ascii.eqb c' LF
             then expandReplacement nl crlf before rest'
                  +:+ replaceLineTerminatorsFrom nl (before +:+ crlf) rest'
             else String c (replaceLineTerminatorsFrom nl (before +:+ String c "") rest)
         | EmptyString => String c EmptyString
         end.
Proof. reflexivity. Qed.

Lemma insertLineTerminators_cons nl c rest :
  insertLineTerminators nl (String c rest)
  = if Ascii.eqb c LF then nl +:+ insertLineTerminators nl rest
    else match rest with
         | String c' rest' =>
             if Ascii.eqb c CR && Ascii.eqb c' LF
             then nl +:+ insertLineTerminators nl rest'
             else String c (insertLineTerminators nl rest)
         | EmptyString => String c EmptyString
         end.
Proof. reflexivity. Qed.

(** The two usual newline strings have no [$] in them: they replace a
    match as they stand. *)
Lemma expandReplacement_lf matched before after :
  expandReplacement lf matched before after = lf.
Proof. reflexivity. Qed.

Lemma expandReplacement_crlf matched before after :
  expandReplacement crlf matched before after = crlf.
Proof. reflexivity. Qed.

Lemma replaceLineTerminatorsFrom_literal nl :
  (forall matched before after, expandReplacement nl matched before after = nl) ->
  forall text before,
    replaceLineTerminatorsFrom nl before text = insertLineTerminators nl text.
Proof.
  intros Hnl text.
  induction text as [|c|c c' s IHs IHcs] using string_ind2; intros before.
  - reflexivity.
  - rewrite replaceLineTerminatorsFrom_cons, insertLineTerminators_cons, Hnl.
    reflexivity.
  - rewrite replaceLineTerminatorsFrom_cons, insertLineTerminators_cons, !Hnl.
    by rewrite IHs, !IHcs.
Qed.

Lemma replaceLineTerminators_literal nl text :
  nl = lf \/ nl = crlf ->
  replaceLineTerminators nl text = insertLineTerminators nl text.
Proof.
  intros [-> | ->]; apply replaceLineTerminatorsFrom_literal.
  - apply expandReplacement_lf.
  - apply expandReplacement_crlf.
Qed.

Lemma replaceLineTerminatorsFrom_no_line_feed nl text :
  (forall i, String.get i text <> Some LF) ->
  forall before, replaceLineTerminatorsFrom nl before text = text.
Proof.
  induction text as [|c rest IH]; intros H before; [reflexivity|].
  assert (Hc : c <> LF) by (intros ->; exact (H 0 eq_refl)).
  assert (Hrest : forall i, get i rest <> Some LF) by (intros i; exact (H (S i))).
  rewrite replaceLineTerminatorsFrom_cons.
  rewrite (proj2 (Ascii.eqb_neq _ _) Hc).
  destruct rest as [|c' rest']; [reflexivity|].
  assert (Hc' : c' <> LF) by (intros ->; exact (Hrest 0 eq_refl)).
  rewrite (proj2 (Ascii.eqb_neq _ _) Hc'), andb_false_r.
  by rewrite IH.
Qed.

(** X6. A text without a line feed is returned as it is by the
    normalisation, whatever the newline string: a carriage return that
    no line feed follows is kept. *)
Theorem replaceLineTerminators_no_line_feed nl text :
  (forall i, String.get i text <> Some LF) ->
  replaceLineTerminators nl text = text.
Proof.
  intros H. unfold replaceLineTerminators.
  by apply replaceLineTerminatorsFrom_no_line_feed.
Qed.

Lemma crlf_normal_head s :
  match insertLineTerminators crlf s with
  | String c _ => c <> LF
  | EmptyString => True
  end.
Proof.
  destruct s as [|c rest]; [exact I|].
  rewrite insertLineTerminators_cons.
  destruct (Ascii.eqb_spec c LF) as [->|Hc]; [cbn; discriminate|].
  destruct rest as [|c' rest']; [exact Hc|].
  destruct (Ascii.eqb c CR && Ascii.eqb c' LF); [cbn; discriminate|exact Hc].
Qed.

Lemma insertLineTerminators_crlf_idempotent text :
  insertLineTerminators crlf (insertLineTerminators crlf text)
  = insertLineTerminators crlf text.
Proof.
  induction text as [|c|c c' s IHs IHcs] using string_ind2.
  - reflexivity.
  - rewrite insertLineTerminators_cons.
    destruct (Ascii.eqb_spec c LF) as [->|Hc]; [reflexivity|].
    rewrite insertLineTerminators_cons, (proj2 (Ascii.eqb_neq _ _) Hc). reflexivity.
  - rewrite (insertLineTerminators_cons crlf c).
    destruct (Ascii.eqb_spec c LF) as [->|Hc].
    + change (crlf +:+ ?x) with (String CR (String LF x)).
      rewrite (insertLineTerminators_cons crlf CR). cbn [Ascii.eqb CR LF Bool.eqb andb].
      change (String CR (String LF ?x)) with (crlf +:+ x). by rewrite IHcs.
    + destruct (Ascii.eqb c CR && Ascii.eqb c' LF) eqn:Hp.
      * change (crlf +:+ ?x) with (String CR (String LF x)).
        rewrite (insertLineTerminators_cons crlf CR). cbn [Ascii.eqb CR LF Bool.eqb andb].
        change (String CR (String LF ?x)) with (crlf +:+ x). by rewrite IHs.
      * rewrite insertLineTerminators_cons, (proj2 (Ascii.eqb_neq _ _) Hc).
        pose proof (crlf_normal_head (String c' s)) as Hh.
        destruct (insertLineTerminators crlf (String c' s)) as [|d rest] eqn:Hn.
        { reflexivity. }
        rewrite (proj2 (Ascii.eqb_neq _ _) Hh), andb_false_r.
        by rewrite IHcs.
Qed.

(** X5. With carriage return plus line feed as the newline string the
    normalisation is idempotent: a text it produced is left as it is by
    a second pass. *)
Theorem replaceLineTerminators_crlf_idempotent text :
  replaceLineTerminators crlf (replaceLineTerminators crlf text)
  = replaceLineTerminators crlf text.
Proof.
  rewrite !(replaceLineTerminators_literal crlf) by (by right).
  apply insertLineTerminators_crlf_idempotent.
Qed.

(** With a line feed as the newline string a second pass can still
    change the text: of two carriage returns before a line feed the
    first pass removes one. *)
Example replaceLineTerminators_lf_second_pass :
  let text := String CR (String CR lf) in
  replaceLineTerminators lf text = String CR lf
  /\ replaceLineTerminators lf (replaceLineTerminators lf text) = lf.
Proof. split; reflexivity. Qed.

(** A newline string with [$] patterns in it is expanded at every
    match: [$&] is the terminator found, [$`] and [$'] the text before
    and after it, [$$] a dollar sign. *)
Example replaceLineTerminators_expands_patterns :
  replaceLineTerminators "$&" (String "a" lf) = String "a" lf
  /\ replaceLineTerminators "[$`|$'|$$|$1]" ("a" +:+ lf +:+ "b") = "a[a|b|$|$1]b".
Proof. split; reflexivity. Qed.

Lemma string_length_append s t : String.length (s +:+ t) = String.length s + String.length t.
Proof. induction s as [|c s IH]; simpl; [reflexivity|]. by f_equal. Qed.

Lemma substring_whole s : substring 0 (String.length s) s = s.
Proof. induction s as [|c s IH]; simpl; [reflexivity|]. by f_equal. Qed.

Lemma substring_after_prefix p s : substring (String.length p) (String.length s) (p +:+ s) = s.
Proof. induction p as [|c p IH]; simpl; [apply substring_whole|exact IH]. Qed.

Lemma endsWith_append p suffix : endsWith (p +:+ suffix) suffix = true.
Proof.
  unfold endsWith. rewrite string_length_append.
  rewrite (proj2 (Nat.leb_le _ _)) by lia.
  replace (String.length p + String.length suffix - String.length suffix)
    with (String.length p) by lia.
  rewrite substring_after_prefix. cbn. apply String.eqb_refl.
Qed.

Lemma string_split_at s : forall m, m <= String.length s ->
  s = substring 0 m s +:+ substring m (String.length s - m) s.
Proof.
  induction s as [|c s IH]; intros [|m] Hm; simpl in *; try lia.
  - reflexivity.
  - change ("" +:+ ?x) with x. f_equal. symmetry. apply substring_whole.
  - change (String c ?x +:+ ?y) with (String c (x +:+ y)). f_equal. apply IH. lia.
Qed.

Lemma endsWith_true str suffix :
  endsWith str suffix = true -> exists p, str = p +:+ suffix.
Proof.
  unfold endsWith. intros H. apply andb_true_iff in H as [Hle Heq].
  apply Nat.leb_le in Hle. apply String.eqb_eq in Heq.
  exists (substring 0 (String.length str - String.length suffix) str).
  pose proof (string_split_at str (String.length str - String.length suffix)
                ltac:(lia)) as Hsplit.
  replace (String.length str - (String.length str - String.length suffix))
    with (String.length suffix) in Hsplit by lia.
  by rewrite Heq in Hsplit.
Qed.

Lemma string_append_assoc a b c : (a +:+ b) +:+ c = a +:+ (b +:+ c).
Proof.
  induction a as [|x a IH]; [reflexivity|].
  change (String x ((a +:+ b) +:+ c) = String x (a +:+ (b +:+ c))). by rewrite IH.
Qed.

Lemma insertLineTerminators_suffix nl : nl = lf \/ nl = crlf ->
  forall p, exists q, insertLineTerminators nl (p +:+ nl) = q +:+ nl.
Proof.
  intros Hnl p.
  induction p as [|c|c c' s [qs IHs] [qcs IHcs]] using string_ind2.
  - exists "". destruct Hnl as [-> | ->]; reflexivity.
  - destruct Hnl as [-> | ->].
    + change (String c "" +:+ lf) with (String c lf).
      rewrite insertLineTerminators_cons.
      destruct (Ascii.eqb_spec c LF) as [->|Hc]; [by exists lf|].
      cbn [lf Ascii.eqb LF Bool.eqb]. rewrite andb_true_r.
      destruct (Ascii.eqb c CR); [by exists ""|by exists (String c "")].
    + change (String c "" +:+ crlf) with (String c crlf).
      rewrite insertLineTerminators_cons.
      destruct (Ascii.eqb_spec c LF) as [->|Hc]; [by exists crlf|].
      cbn [crlf Ascii.eqb CR LF Bool.eqb andb]. rewrite andb_false_r.
      by exists (String c "").
  - change (String c (String c' s) +:+ nl) with (String c (String c' (s +:+ nl))).
    rewrite insertLineTerminators_cons.
    change (String c' (s +:+ nl)) with (String c' s +:+ nl).
    destruct (Ascii.eqb c LF).
    + rewrite IHcs. exists (nl +:+ qcs). by rewrite string_append_assoc.
    + cbn [String.append]. destruct (Ascii.eqb c CR && Ascii.eqb c' LF).
      * rewrite IHs. exists (nl +:+ qs). by rewrite string_append_assoc.
      * change (String c' (s +:+ nl)) with (String c' s +:+ nl). rewrite IHcs.
        by exists (String c qcs).
Qed.

Lemma normalised_suffix nl : nl = lf \/ nl = crlf ->
  forall p, exists q, replaceLineTerminators nl (p +:+ nl) = q +:+ nl.
Proof.
  intros Hnl p. rewrite replaceLineTerminators_literal by exact Hnl.
  by apply insertLineTerminators_suffix.
Qed.

(** ** Grouping by source file *)

Section Grouping.

Context {A : Type}.

Lemma pushInto_keys (k : string) (x : A) es :
  (pushInto k x es).*1 = if decide (k ∈ es.*1) then es.*1 else es.*1 ++ [k].
Proof.
  induction es as [|[k0 xs0] rest IH]; [reflexivity|].
  cbn [pushInto]. destruct (String.eqb_spec k0 k) as [->|Hne].
  - cbn. rewrite decide_True by left. reflexivity.
  - cbn [fmap list_fmap fst]. fold (fmap (M:=list) (@fst string (list A))). rewrite IH.
    destruct (decide (k ∈ rest.*1)) as [Hin|Hnin].
    + rewrite decide_True by (right; exact Hin). reflexivity.
    + rewrite decide_False; [reflexivity|].
      intros Hin. apply elem_of_cons in Hin as [->|Hin]; done.
Qed.

Lemma pushInto_NoDup (k : string) (x : A) es :
  NoDup es.*1 -> NoDup (pushInto k x es).*1.
Proof.
  intros Hnd. rewrite pushInto_keys. destruct (decide (k ∈ es.*1)); [exact Hnd|].
  apply NoDup_app. split; [exact Hnd|]. split; [|apply NoDup_singleton].
  intros y Hy Hy'. apply list_elem_of_singleton in Hy'. by subst.
Qed.

Lemma pushInto_elem (k : string) (x : A) es k' xs' :
  NoDup es.*1 -> (k', xs') ∈ pushInto k x es ->
  (k' <> k /\ (k', xs') ∈ es)
  \/ (k' = k /\ exists xs, xs' = xs ++ [x] /\ ((k, xs) ∈ es \/ (xs = [] /\ k ∉ es.*1))).
Proof.
  induction es as [|[k0 xs0] rest IH]; intros Hnd Hin.
  - apply list_elem_of_singleton in Hin. injection Hin as -> ->.
    right. split; [reflexivity|]. exists []. split; [reflexivity|]. right. split; [done|].
    apply not_elem_of_nil.
  - cbn in Hnd. apply NoDup_cons in Hnd as [Hk0 Hnd].
    cbn [pushInto] in Hin. destruct (String.eqb_spec k0 k) as [->|Hne].
    + apply elem_of_cons in Hin as [Heq|Hin].
      * injection Heq as -> ->. right. split; [reflexivity|].
        exists xs0. split; [reflexivity|]. left. left.
      * left. split; [|by right]. intros ->. apply Hk0.
        apply list_elem_of_fmap. by exists (k, xs').
    + apply elem_of_cons in Hin as [Heq|Hin].
      * injection Heq as -> ->. left. split; [done|left].
      * destruct (IH Hnd Hin) as [[Hk Hin']|[-> (xs & -> & Hcase)]].
        -- left. split; [exact Hk|by right].
        -- right. split; [reflexivity|]. exists xs. split; [reflexivity|].
           destruct Hcase as [Hin'|[-> Hnin]]; [left; by right|].
           right. split; [reflexivity|]. cbn. intros Hin'.
           apply elem_of_cons in Hin' as [->|Hin']; done.
Qed.

Context (key : A -> string).

Lemma groupedBy_spec xs :
  let groupedBy xs := foldl (fun cache x => pushInto (key x) x cache) [] xs in
  NoDup (groupedBy xs).*1
  /\ (forall k g, (k, g) ∈ groupedBy xs -> g = filter (fun x => key x = k) xs /\ g <> [])
  /\ (forall x, x ∈ xs -> key x ∈ (groupedBy xs).*1).
Proof.
  intros groupedBy.
  induction xs as [|x xs (Hnd & Hgroups & Hkeys)] using rev_ind.
  - split; [apply NoDup_nil_2|]. split; [|intros x Hx; by apply elem_of_nil in Hx].
    intros k g Hin. by apply elem_of_nil in Hin.
  - unfold groupedBy in *. rewrite foldl_app. cbn [foldl].
    set (es := foldl _ [] xs) in *.
    split; [by apply pushInto_NoDup|]. split.
    + intros k g Hin. rewrite filter_app, filter_cons, filter_nil.
      destruct (pushInto_elem _ _ _ _ _ Hnd Hin) as [[Hk Hin']|[-> (g0 & -> & Hcase)]].
      * destruct (Hgroups _ _ Hin') as [-> Hne].
        rewrite decide_False by done. by rewrite app_nil_r.
      * rewrite decide_True by done. split; [|by destruct g0].
        f_equal. destruct Hcase as [Hin'|[-> Hnin]]; [by apply Hgroups|].
        destruct (filter _ xs) as [|y rest] eqn:Hf; [reflexivity|].
        assert (Hy : y ∈ filter (fun x0 => key x0 = key x) xs) by (rewrite Hf; left).
        apply list_elem_of_filter in Hy as [Hky Hy].
        exfalso. apply Hnin. rewrite <- Hky. by apply Hkeys.
    + intros y Hy. rewrite pushInto_keys.
      apply elem_of_app in Hy as [Hy|Hy].
      * destruct (decide (key x ∈ es.*1)); [by apply Hkeys|].
        apply elem_of_app. left. by apply Hkeys.
      * apply list_elem_of_singleton in Hy as ->.
        destruct (decide (key x ∈ es.*1)); [done|].
        apply elem_of_app. right. by apply list_elem_of_singleton.
Qed.

End Grouping.

(** X1. After the first loop of [renameLocations] every source file
    is keyed once, its entry holds exactly the locations of that file in
    the order they were given, no entry is empty, and every location's
    file has an entry. *)
Theorem renameLocationsBySourceFile_groups (locations : list (handle ts_DocumentSpan)) :
  let entries := renameLocationsBySourceFile locations in
  NoDup entries.*1
  /\ (forall sourceFile group,
        (sourceFile, group) ∈ entries ->
        group = locationsIn sourceFile locations /\ group <> [])
  /\ (forall l, l ∈ locations -> ds_fileName (compilerObject l) ∈ entries.*1).
Proof. apply (groupedBy_spec (fun l => ds_fileName (compilerObject l))). Qed.

Section MoreFacadeProperties.

Context {collaborators : Collaborators}.

Lemma replaceEach_run entries newName : forall ls,
  replaceEach entries newName ls
  = (cacheSet (foldl (replaceIn newName) (sourceFileCache (global ls)) entries) ls, inr tt).
Proof.
  induction entries as [|[sourceFile locations] rest IH]; intros ls.
  - by destruct ls as [[] ? ? ?].
  - cbn [replaceEach foldl]. unfold mbind, M_bind, replaceTextOf, modify.
    rewrite IH. reflexivity.
Qed.

Lemma replaceAll_lookup newName entries : forall cache p,
  NoDup entries.*1 ->
  (p ∉ entries.*1 -> foldl (replaceIn newName) cache entries !! p = cache !! p)
  /\ (forall locations, (p, locations) ∈ entries ->
        foldl (replaceIn newName) cache entries !! p
        = (fun text => replaceSourceFileTextForRename text locations newName)
            <$> cache !! p).
Proof.
  induction entries as [|[k locs] rest IH]; intros cache p Hnd.
  { split; [reflexivity|]. intros locations Hin. by apply elem_of_nil in Hin. }
  cbn in Hnd. apply NoDup_cons in Hnd as [Hk Hnd].
  cbn [foldl]. destruct (IH (replaceIn newName cache (k, locs)) p Hnd) as [IHout IHin].
  split.
  - intros Hp. cbn in Hp. apply not_elem_of_cons in Hp as [Hne Hp].
    rewrite IHout by done. unfold replaceIn. cbn. by rewrite lookup_alter_ne.
  - intros locations Hin. apply elem_of_cons in Hin as [Heq|Hin].
    + injection Heq as -> ->. rewrite IHout by done.
      unfold replaceIn. cbn. by rewrite lookup_alter_eq.
    + rewrite (IHin _ Hin). unfold replaceIn. cbn. rewrite lookup_alter_ne; [done|].
      intros ->. apply Hk. apply list_elem_of_fmap. by exists (p, locations).
Qed.

(** X2. [renameLocations] rewrites each tracked file once: a file with
    locations gets the one replacement made with all of its locations,
    in the order given, and a file without locations keeps its text. *)
Theorem renameLocations_rewrites_each_file_once
    (ls : LanguageService) (locations : list (handle ts_DocumentSpan))
    (newName filePath text : string) :
  sourceFileCache (global ls) !! filePath = Some text ->
  let ls' := after (renameLocations locations newName) ls in
  sourceFileCache (global ls') !! filePath
  = Some (if decide (locationsIn filePath locations = []) then text
          else replaceSourceFileTextForRename text
                 (locationsIn filePath locations) newName).
Proof.
  intros Htext ls'. unfold ls', after, renameLocations.
  fold (renameLocationsBySourceFile locations). rewrite replaceEach_run. cbn [fst snd].
  destruct (groupedBy_spec (fun l : handle ts_DocumentSpan => ds_fileName (compilerObject l))
              locations) as (Hnd & Hgroups & Hkeys).
  fold (renameLocationsBySourceFile locations) in Hnd, Hgroups, Hkeys.
  destruct (replaceAll_lookup newName (renameLocationsBySourceFile locations)
              (sourceFileCache (global ls)) filePath Hnd) as [Hout Hin].
  cbn [cacheSet global with_global sourceFileCache with_cache].
  destruct (decide (filePath ∈ (renameLocationsBySourceFile locations).*1)) as [Hk|Hk].
  - apply list_elem_of_fmap in Hk as ([k group] & -> & Hentry). cbn in *.
    destruct (Hgroups _ _ Hentry) as [-> Hne].
    rewrite (Hin _ Hentry), Htext. cbn. by rewrite decide_False.
  - rewrite (Hout Hk), Htext. rewrite decide_True; [done|].
    destruct (locationsIn filePath locations) as [|l rest] eqn:Hf; [reflexivity|].
    assert (Hl : l ∈ locationsIn filePath locations) by (rewrite Hf; left).
    apply list_elem_of_filter in Hl as [Hfile Hl].
    exfalso. apply Hk. rewrite <- Hfile. by apply Hkeys.
Qed.

(** X3. [renameNode] with a blank new name throws the argument error
    and changes nothing, whatever the node's text.  With a name that is
    neither blank nor the node's text it asks the engine once for the
    rename locations, with both search flags off.  If the engine throws,
    the exception propagates, and if the engine finds nothing (or
    answers [undefined]) the call returns normally; in both cases the
    state is the one the engine's callbacks left, with the call
    recorded, and every file that was tracked has the text it had. *)
Theorem renameNode_failures_change_no_text
    (ls : LanguageService) (node : Node) (newName : string) :
  let filePath := getFilePath (node_sourceFile node) in
  let query := ts_findRenameLocations E filePath (node_start node) false false in
  let call := CallFindRenameLocations filePath (node_start node) false false in
  (isNullOrWhitespace newName = true ->
     renameNode node newName ls = (ls, inl (ArgumentNullOrWhitespaceError "newName")))
  /\ (isNullOrWhitespace newName = false -> node_text node <> newName ->
      forall res,
        (exists e, engineAnswer query ls = inl e /\ res = inl e)
        \/ (emptyAnswer (engineAnswer query ls) /\ res = inr tt) ->
        renameNode node newName ls = (called call (after (serve query) ls), res)
        /\ engineCalls (after (renameNode node newName) ls) = engineCalls ls ++ [call]
        /\ forall path text,
             sourceFileCache (global ls) !! path = Some text ->
             sourceFileCache (global (after (renameNode node newName) ls)) !! path
             = Some text).
Proof.
  intros filePath query call. split.
  - intros Hblank. unfold renameNode, throwIfNotStringOrWhitespace, mbind, M_bind.
    by rewrite Hblank.
  - intros Hblank Hne res Hcase.
    assert (Hrun : renameNode node newName ls
                   = (called call (after (serve query) ls), res)).
    { assert (Hrun : renameNode node newName ls
                     = (locations ← findRenameLocations node;
                        renameLocations locations newName) ls).
      { unfold renameNode, throwIfNotStringOrWhitespace. unfold mbind at 1, M_bind at 1.
        rewrite Hblank. cbn [mret M_ret].
        by rewrite (proj2 (String.eqb_neq _ _) Hne). }
      rewrite Hrun. unfold mbind, M_bind.
      rewrite findRenameLocations_run. cbv zeta. fold filePath query call.
      unfold normalised.
      destruct Hcase as [(e & -> & ->)|[[-> | ->] ->]]; [reflexivity| |].
      - cbn [mapResult orEmpty fmap list_fmap]. unfold renameLocations.
        rewrite replaceEach_run. cbn [foldl]. f_equal.
        by destruct (called call (after (serve query) ls)) as [[] ? ? ?].
      - cbn [mapResult orEmpty fmap list_fmap]. unfold renameLocations.
        rewrite replaceEach_run. cbn [foldl]. f_equal.
        by destruct (called call (after (serve query) ls)) as [[] ? ? ?]. }
    split; [exact Hrun|]. unfold after. rewrite Hrun. cbn [fst].
    destruct (serve_keeps query ls) as [Hcalls Hfiles].
    split.
    + by rewrite engineCalls_called, Hcalls.
    + intros path text Htext. rewrite global_called. by apply Hfiles.
Qed.

(** ** Paths are checked first *)


(** ** Formatted text *)

(** X7. With the ensure-newline setting on and a line feed, or a
    carriage return plus line feed, as the newline string, the text
    [getFormattedDocumentText] returns for a cached file ends with the
    newline string. *)
Theorem getFormattedDocumentText_ends_with_newline
    (ls : LanguageService) (filePath : string) (settings : JsObject)
    (text newLineChar : string) (edits : option (list ts_TextChange)) :
  let filled := filledSettings (global ls) settings in
  sourceFileCache (global ls) !! filePath = Some text ->
  engineAnswer (ts_getFormattingEditsForDocument E filePath filled) ls = inr edits ->
  prop filled "newLineCharacter" = VString newLineChar ->
  newLineChar = lf \/ newLineChar = crlf ->
  truthy (prop filled "ensureNewLineAtEndOfFile") = true ->
  exists formatted,
    result (getFormattedDocumentText filePath settings) ls = inr formatted
    /\ endsWith formatted newLineChar = true.
Proof.
  intros filled Htext Hedits Hnl Hkind Hensure. unfold result.
  rewrite getFormattedDocumentText_run, Htext. cbn zeta. fold filled.
  rewrite Hedits, Hnl, Hensure. cbn [mapResult snd toJsString andb].
  eexists. split; [reflexivity|].
  set (edited := getTextFromFormattingEdits text _).
  assert (Hsuffix : exists p, (if negb (endsWith edited newLineChar)
                               then edited +:+ newLineChar else edited)
                              = p +:+ newLineChar).
  { destruct (endsWith edited newLineChar) eqn:He; cbn [negb].
    - by apply endsWith_true.
    - by exists edited. }
  destruct Hsuffix as [p ->].
  destruct (normalised_suffix newLineChar Hkind p) as [q ->].
  apply endsWith_append.
Qed.

End MoreFacadeProperties.

(** ** Files as the hosts see them *)

(** X8. A cached file hides what backing storage holds under the same
    path: both hosts read the cached text, the snapshot and the compile
    host's source file are the cached text, the file exists, and none of
    these calls changes the state. *)
Theorem cached_text_wins_over_storage
    (ls : LanguageService) (path text : string) :
  sourceFileCache (global ls) !! path = Some text ->
  languageServiceHost_readFile path ls = (ls, inr (Some text))
  /\ compilerHost_readFile path ls = (ls, inr (Some text))
  /\ languageServiceHost_getScriptSnapshot path ls = (ls, inr (Some text))
  /\ compilerHost_getSourceFile path ls = (ls, inr (Some text))
  /\ languageServiceHost_fileExists path ls = (ls, inr true)
  /\ compilerHost_fileExists path ls = (ls, inr true).
Proof.
  intros Hc.
  assert (Hcontains : containsSourceFileAtPath (global ls) path = true).
  { unfold containsSourceFileAtPath. apply bool_decide_eq_true_2. eauto. }
  assert (Hread : languageServiceHost_readFile path ls = (ls, inr (Some text))).
  { unfold languageServiceHost_readFile, mbind, M_bind, gets.
    rewrite Hcontains. unfold getSourceFileFromCacheFromFilePath. by rewrite Hc. }
  assert (Hexists : languageServiceHost_fileExists path ls = (ls, inr true)).
  { unfold languageServiceHost_fileExists, gets, fileExistsSync. by rewrite Hcontains. }
  repeat split; try done.
  - by rewrite getScriptSnapshot_run, Hc.
  - unfold compilerHost_getSourceFile. by rewrite addOrGetSourceFileFromFilePath_run, Hc.
Qed.

(** X9. For every path, the host reports the file as existing exactly
    when it has a snapshot for it, and [readFile] then returns the text
    of the snapshot; the compile host's [getSourceFile], [fileExists]
    and [readFile] behave as the language service host's
    [getScriptSnapshot], [fileExists] and [readFile]. *)
Theorem hosts_see_the_same_files (ls : LanguageService) (path : string) :
  (result (languageServiceHost_fileExists path) ls = inr true
   <-> exists text, result (languageServiceHost_getScriptSnapshot path) ls = inr (Some text))
  /\ (forall text,
        result (languageServiceHost_getScriptSnapshot path) ls = inr (Some text) ->
        result (languageServiceHost_readFile path) ls = inr (Some text))
  /\ compilerHost_getSourceFile path ls = languageServiceHost_getScriptSnapshot path ls
  /\ compilerHost_fileExists path ls = languageServiceHost_fileExists path ls
  /\ compilerHost_readFile path ls = languageServiceHost_readFile path ls.
Proof.
  unfold result, compilerHost_fileExists, compilerHost_readFile.
  rewrite getScriptSnapshot_run.
  unfold compilerHost_getSourceFile. rewrite addOrGetSourceFileFromFilePath_run.
  unfold languageServiceHost_fileExists, languageServiceHost_readFile, gets, mbind, M_bind,
    fileExistsSync, containsSourceFileAtPath, fs_fileExistsSync,
    getSourceFileFromCacheFromFilePath, fs_readFileSync.
  destruct (sourceFileCache (global ls) !! path) as [cached|] eqn:Hc.
  - rewrite bool_decide_eq_true_2 by eauto. cbn. repeat split; eauto.
  - rewrite (bool_decide_eq_false_2 (is_Some None)) by (intros [? ?]; done).
    destruct (fs_files (fileSystemWrapper (global ls)) !! path) as [stored|] eqn:Hf.
    + rewrite bool_decide_eq_true_2 by eauto. cbn. repeat split; eauto.
    + rewrite bool_decide_eq_false_2 by (intros [? ?]; done). cbn.
      repeat split; try done. by intros [? ?].
Qed.


(** ** View models of the compiler classes *)

Lemma foldl_concat {A} (ls : list (list A)) : forall acc,
  foldl (fun a b => a ++ b) acc ls = acc ++ mjoin ls.
Proof.
  induction ls as [|l ls IH]; intros acc; cbn; [by rewrite app_nil_r|].
  by rewrite IH, app_assoc.
Qed.

Lemma indexOf_nonnegative str searchString :
  searchString <> "" ->
  (0 <= indexOf str searchString)%Z <-> occursIn searchString str.
Proof.
  intros Hne. unfold indexOf, occursIn.
  destruct (String.index 0 searchString str) as [n|] eqn:Hi.
  - split; [|lia]. intros _. exists n. by eapply index_correct1.
  - split; [lia|]. intros [m Hm]. exfalso.
    eapply (index_correct3 0 m); eauto. lia.
Qed.

(** X11. [getClassViewModels] writes the diagnostics' messages to the
    console once and yields the view models of the classes of the
    source files whose path contains [src/compiler]: one per class,
    file after file in the order of the source files and, within a
    file, in the order of its classes, and nothing else.  When every
    class reports the file that lists it, every view model's path
    contains [src/compiler]. *)
Theorem getClassViewModels_lists_the_compiler_classes {Mixin : Type}
    (getMixinViewModels : ClassDeclaration -> list Mixin) (ast : TsSimpleAst) :
  wellFormedAst ast ->
  let viewModelOf c :=
    mkClassViewModel (class_getName c) (getMixinViewModels c) (class_getSourceFilePath c) in
  (getClassViewModels getMixinViewModels ast).1 = [ast_getDiagnostics ast]
  /\ (getClassViewModels getMixinViewModels ast).2
     = (f ← filter (fun f => (0 <= indexOf (ast_getFilePath f) "src/compiler")%Z)
                   (ast_getSourceFiles ast);
        viewModelOf <$> ast_getClasses f)
  /\ (forall vm,
        vm ∈ (getClassViewModels getMixinViewModels ast).2
        <-> exists f c,
              f ∈ ast_getSourceFiles ast /\ c ∈ ast_getClasses f
              /\ occursIn "src/compiler" (ast_getFilePath f)
              /\ vm = viewModelOf c)
  /\ (forall vm, vm ∈ (getClassViewModels getMixinViewModels ast).2 ->
        occursIn "src/compiler" (vm_path vm))
  /\ length (getClassViewModels getMixinViewModels ast).2
     = length (mjoin (ast_getClasses <$>
         filter (fun f => (0 <= indexOf (ast_getFilePath f) "src/compiler")%Z)
                (ast_getSourceFiles ast))).
Proof.
  intros Hwf viewModelOf.
  assert (Hmem : forall vm,
        vm ∈ (getClassViewModels getMixinViewModels ast).2
        <-> exists f c,
              f ∈ ast_getSourceFiles ast /\ c ∈ ast_getClasses f
              /\ occursIn "src/compiler" (ast_getFilePath f)
              /\ vm = viewModelOf c).
  { intros vm. unfold getClassViewModels. cbn [snd].
    rewrite foldl_concat, app_nil_l, list_elem_of_fmap. split.
    - intros (c & -> & Hc). apply list_elem_of_join in Hc as (classes & Hc & Hclasses).
      apply list_elem_of_fmap in Hclasses as (f & -> & Hf).
      apply list_elem_of_filter in Hf as [Hidx Hf].
      exists f, c. repeat split; try done. by apply indexOf_nonnegative.
    - intros (f & c & Hf & Hc & Hocc & ->). exists c. split; [reflexivity|].
      apply list_elem_of_join. exists (ast_getClasses f). split; [exact Hc|].
      apply list_elem_of_fmap. exists f. split; [reflexivity|].
      apply list_elem_of_filter. split; [|exact Hf]. by apply indexOf_nonnegative. }
  split; [reflexivity|]. split; [|split; [exact Hmem|split]].
  - unfold getClassViewModels. cbn [snd]. rewrite foldl_concat, app_nil_l.
    fold viewModelOf.
    induction (filter _ (ast_getSourceFiles ast)) as [|f fs IH]; [reflexivity|].
    cbn [fmap list_fmap mjoin list_join]. rewrite fmap_app, bind_cons.
    f_equal. exact IH.
  - intros vm Hvm. apply Hmem in Hvm as (f & c & Hf & Hc & Hocc & ->).
    cbn. unfold wellFormedAst in Hwf. rewrite Forall_forall in Hwf. specialize (Hwf f Hf).
    rewrite Forall_forall in Hwf. by rewrite (Hwf c Hc).
  - unfold getClassViewModels. cbn [snd]. by rewrite foldl_concat, app_nil_l, length_fmap.
Qed.

(** ** The concrete session, continued *)

(** A carriage return inside a line. *)
Lemma replaceLineTerminators_no_line_feed_witness :
  replaceLineTerminators crlf (String "a" (String CR "b")) = String "a" (String CR "b").
Proof.
  apply replaceLineTerminators_no_line_feed.
  intros [|[|[|i]]]; cbn; discriminate.
Defined.

(** The three locations of [x], applied with the new name [y], seen
    from [/a.ts]. *)
Lemma renameLocations_witness :
  sourceFileCache
    (global (after (renameLocations (collaborators := scripted)
                      (Handle <$> [ mkDocumentSpan "/a.ts" x_in_a;
                                    mkDocumentSpan "/b.ts" x_imported_in_b;
                                    mkDocumentSpan "/b.ts" x_used_in_b ]) "y")
                   sampleService)) !! "/a.ts"
  = Some "const y = 1;".
Proof.
  exact (renameLocations_rewrites_each_file_once (collaborators := scripted)
           sampleService
           (Handle <$> [ mkDocumentSpan "/a.ts" x_in_a;
                         mkDocumentSpan "/b.ts" x_imported_in_b;
                         mkDocumentSpan "/b.ts" x_used_in_b ])
           "y" "/a.ts" a_ts eq_refl).
Defined.

(** The file with Unix line ends, formatted for Windows line ends. *)
Lemma getFormattedDocumentText_ends_with_newline_witness :
  exists formatted,
    result (getFormattedDocumentText (collaborators := scripted) "/u.ts" windowsSettings)
      unixFileService = inr formatted
    /\ endsWith formatted crlf = true.
Proof.
  apply (getFormattedDocumentText_ends_with_newline (collaborators := scripted)
           unixFileService "/u.ts" windowsSettings (String "a" lf) crlf (Some []));
    try reflexivity.
  right. reflexivity.
Defined.

(** [/a.ts] is cached as [const x = 1;] and stored as [const old = 0;]. *)
Lemma cached_text_wins_witness :
  fs_files (fileSystemWrapper (global shadowedService)) !! "/a.ts" = Some "const old = 0;"
  /\ languageServiceHost_readFile "/a.ts" shadowedService
     = (shadowedService, inr (Some a_ts)).
Proof.
  split; [reflexivity|].
  destruct (cached_text_wins_over_storage shadowedService "/a.ts" a_ts eq_refl) as (H & _).
  exact H.
Defined.

(** Three source files, two of them under [src/compiler]. *)
Lemma getClassViewModels_witness :
  vm_name <$> (getClassViewModels (fun _ => @nil unit) sampleAst).2
  = ["LanguageService"; "Node"; "SyntaxList"]
  /\ forall vm, vm ∈ (getClassViewModels (fun _ => @nil unit) sampleAst).2 ->
       occursIn "src/compiler" (vm_path vm).
Proof.
  split; [reflexivity|].
  assert (Hwf : wellFormedAst sampleAst) by (repeat constructor).
  destruct (getClassViewModels_lists_the_compiler_classes (fun _ => @nil unit)
              sampleAst Hwf) as (_ & _ & _ & H & _).
  exact H.
Defined.

(** Renaming [x] to [y] with the engine that finds nothing: the call
    returns, the two version requests and the recorded call are all
    that happened, and [/a.ts] reads as before. *)
Lemma renameNode_nothing_found_witness :
  let ls := after (renameNode (collaborators := silent) x_node "y") sampleService in
  result (renameNode (collaborators := silent) x_node "y") sampleService = inr tt
  /\ engineCalls ls = [CallFindRenameLocations "/a.ts" 6 false false]
  /\ sourceFileCache (global ls) !! "/a.ts" = Some a_ts
  /\ version ls = 2%N.
Proof.
  destruct (renameNode_failures_change_no_text (collaborators := silent)
              sampleService x_node "y") as [_ H].
  destruct (H eq_refl ltac:(discriminate) (inr tt)
              (or_intror (conj (or_introl eq_refl) eq_refl)))
    as (Hrun & Hcalls & Hfiles).
  intros ls. split; [|split; [|split]].
  - unfold result. by rewrite Hrun.
  - exact Hcalls.
  - by apply Hfiles.
  - reflexivity.
Defined.

